(** * Button: debounce and short/long press classification

    A shallow embedding of the button library (button.c, button.h, v2.0)
    and of the update branches of its v1.0 predecessor, with the properties the
    specification states about initialisation, the per-tick update and
    the event query.

    Conventions.
    - Unsigned C integers are [Z]; an increment writes its wrap-around
      out ([uint8], [uint16]).  Button codes and the button count
      ([uint8_t] in C) only ever index the array, they are [nat].
    - A pointer argument that may be [NULL] is an [option]; the array the
      caller lends to the engine is the list stored behind the pointer.
    - What C leaves undefined (a call through a null function pointer, a
      division by zero, an access past the array) makes the operation
      return [None].
    - A callback is known by its identity; invoking it appends an
      [Invoke] record to the trace of the tick. *)

From Stdlib Require Import ZArith Bool List Lia.
From stdpp Require Import base option list.
Import ListNotations.

Local Open Scope Z_scope.

(** ** Data model (button.h) *)

Inductive btn_state_t : Type :=
| BTN_STATE_NONE    (* button not pressed *)
| BTN_STATE_SHORT   (* button short pressed detected *)
| BTN_STATE_LONG.   (* button long pressed detected *)

Definition btn_state_eqb (a b : btn_state_t) : bool :=
  match a, b with
  | BTN_STATE_NONE, BTN_STATE_NONE => true
  | BTN_STATE_SHORT, BTN_STATE_SHORT => true
  | BTN_STATE_LONG, BTN_STATE_LONG => true
  | _, _ => false
  end.

(** The anonymous bit-field struct [state] of an instance. *)
Record state_t : Type := mk_state {
  act : btn_state_t;      (* actual button state *)
  prew : btn_state_t;     (* previous button state *)
  locked : bool           (* debounce button lock *)
}.

Record btn_instance_t : Type := mk_instance {
  state : state_t;
  lock_count : Z;          (* uint8_t, debounce time counter *)
  long_count : Z;          (* uint16_t, long press time counter *)
  long_press_time_ms : Z;  (* uint16_t, optional individual long press time *)
  port : Z;                (* GPIO port *)
  pin : Z                  (* GPIO pin *)
}.

(** Identity of an event handler ([btn_ev_cb_t] is a function pointer). *)
Definition btn_ev_cb_t : Type := nat.

(** One call of an event handler with its button code. *)
Inductive call : Type :=
| Invoke (cb : btn_ev_cb_t) (btn_code : nat).

Definition uint8 (z : Z) : Z := z mod 256.
Definition uint16 (z : Z) : Z := z mod 65536.

Definition BTN_PROCESS_DEF : Z := 10.
Definition BTN_DEBOUNCE_DEF : Z := 20.
Definition BTN_LONG_PRESS_DEF : Z := 1000.

(** Integer division of two unsigned operands; undefined for divisor 0. *)
Definition c_div (a b : Z) : option Z :=
  if b =? 0 then None else Some (Z.quot a b).

Definition set_lock_count (b : btn_instance_t) (v : Z) : btn_instance_t :=
  mk_instance (state b) v (long_count b) (long_press_time_ms b) (port b) (pin b).

Definition set_long_count (b : btn_instance_t) (v : Z) : btn_instance_t :=
  mk_instance (state b) (lock_count b) v (long_press_time_ms b) (port b) (pin b).

Definition set_state (b : btn_instance_t) (s : state_t) : btn_instance_t :=
  mk_instance s (lock_count b) (long_count b) (long_press_time_ms b) (port b) (pin b).

Definition set_locked (b : btn_instance_t) (v : bool) : btn_instance_t :=
  set_state b (mk_state (act (state b)) (prew (state b)) v).

Definition set_prew (b : btn_instance_t) (v : btn_state_t) : btn_instance_t :=
  set_state b (mk_state (act (state b)) v (locked (state b))).

Definition set_act (b : btn_instance_t) (v : btn_state_t) : btn_instance_t :=
  set_state b (mk_state v (prew (state b)) (locked (state b))).

Section Engine.

(** The state of the GPIO hardware at the moment of a tick; the
    user-provided read function inspects it. *)
Variable hw : Type.

(** The user-provided read function: port and pin to a [uint8_t]. *)
Definition port_read_cb_t : Type := hw -> Z -> Z -> Z.

Record btn_init_t : Type := mk_init {
  instance : option (list btn_instance_t);  (* configured button instances *)
  count : nat;                              (* configured amount of buttons *)
  process_time_ms : Z;                      (* uint8_t *)
  debounce_time_ms : Z;                     (* uint8_t *)
  long_press_def_ms : Z;                    (* uint16_t *)
  port_read : option port_read_cb_t;
  short_release : option btn_ev_cb_t;
  long_release : option btn_ev_cb_t;
  long_press : option btn_ev_cb_t
}.

Definition set_instance (this : btn_init_t) (arr : option (list btn_instance_t))
  : btn_init_t :=
  mk_init arr (count this) (process_time_ms this) (debounce_time_ms this)
          (long_press_def_ms this) (port_read this) (short_release this)
          (long_release this) (long_press this).

(** [BTN_DEBOUNCE_TIME] *)
Definition BTN_DEBOUNCE_TIME (this : btn_init_t) : option Z :=
  c_div (debounce_time_ms this) (process_time_ms this).

(** [BTN_LONG_PRESS_TIME(x)], with [b] the instance [x] *)
Definition BTN_LONG_PRESS_TIME (this : btn_init_t) (b : btn_instance_t) : option Z :=
  c_div (long_press_time_ms b) (process_time_ms this).

(** [if (NULL != cb) cb(key);] *)
Definition invoke (cb : option btn_ev_cb_t) (key : nat) : list call :=
  match cb with
  | Some f => [Invoke f key]
  | None => []
  end.

(** ** Button_Init *)

(** The body of the initialisation loop on one instance; [state.act] is
    not assigned. *)
Definition Button_Init_instance (def : Z) (b : btn_instance_t) : btn_instance_t :=
  mk_instance (mk_state (act (state b)) BTN_STATE_NONE false) 0 0
              (if long_press_time_ms b =? 0 then def else long_press_time_ms b)
              (port b) (pin b).

Fixpoint Button_Init_loop (todo i : nat) (def : Z) (arr : list btn_instance_t)
  : option (list btn_instance_t) :=
  match todo with
  | O => Some arr
  | S todo' =>
      b ← arr !! i;
      Button_Init_loop todo' (S i) def (<[i := Button_Init_instance def b]> arr)
  end.

(** [this] is the static pointer before the call; the result is the
    return code and the static pointer after it. *)
Definition Button_Init (this init : option btn_init_t)
    (inst : option (list btn_instance_t)) (cnt : nat)
  : option (Z * option btn_init_t) :=
  match init, inst with
  | Some cfg, Some arr =>
      match port_read cfg with
      | Some _ =>
          if (cnt =? 0)%nat then Some (-1, this)
          else
            let p := if process_time_ms cfg =? 0
                     then BTN_PROCESS_DEF else process_time_ms cfg in
            let d := if debounce_time_ms cfg =? 0
                     then BTN_DEBOUNCE_DEF else debounce_time_ms cfg in
            let l := if long_press_def_ms cfg =? 0
                     then BTN_LONG_PRESS_DEF else long_press_def_ms cfg in
            arr' ← Button_Init_loop cnt 0 l arr;
            Some (0, Some (mk_init (Some arr') cnt p d l (port_read cfg)
                                   (short_release cfg) (long_release cfg)
                                   (long_press cfg)))
      | None => Some (-1, this)
      end
  | _, _ => Some (-1, this)
  end.

(** ** Button_Update *)

(** Branch [BTN_STATE_SHORT == now_pressed]. *)
Definition Button_Update_pressed (this : btn_init_t) (key : nat) (b : btn_instance_t)
  : option (btn_instance_t * list call) :=
  b1 ← (if locked (state b) then Some b
        else
          let b' := set_lock_count b (uint8 (lock_count b + 1)) in
          d ← BTN_DEBOUNCE_TIME this;
          Some (if lock_count b' >=? d then set_locked b' true else b'));
  r ← (if locked (state b1) && btn_state_eqb BTN_STATE_SHORT (prew (state b1))
       then
         let b' := set_long_count b1 (uint16 (long_count b1 + 1)) in
         t ← BTN_LONG_PRESS_TIME this b';
         Some (if long_count b' >=? t
               then (set_act b' BTN_STATE_LONG, invoke (long_press this) key)
               else (b', []))
       else Some (b1, []));
  Some (set_prew (fst r) BTN_STATE_SHORT, snd r).

(** Branch [BTN_STATE_NONE == now_pressed].  The decrement is guarded by
    the test for a nonzero counter, so it never borrows. *)
Definition Button_Update_released (this : btn_init_t) (key : nat) (b : btn_instance_t)
  : option (btn_instance_t * list call) :=
  if locked (state b) then
    if negb (lock_count b =? 0) then
      Some (set_lock_count b (lock_count b - 1), [])
    else
      let b' := set_locked b false in
      t ← BTN_LONG_PRESS_TIME this b';
      if long_count b' <? t then
        if lock_count b' =? 0
        then Some (set_act b' BTN_STATE_SHORT, invoke (short_release this) key)
        else Some (b', [])
      else
        if btn_state_eqb BTN_STATE_LONG (act (state b'))
        then Some (b', invoke (long_release this) key)
        else Some (b', [])
  else Some (set_long_count b 0, []).

(** The body of the [while] loop for one button, given what the read
    function returned for it. *)
Definition Button_Update_body (this : btn_init_t) (key : nat) (raw : Z)
    (b : btn_instance_t) : option (btn_instance_t * list call) :=
  let now_pressed := if raw =? 0 then BTN_STATE_NONE else BTN_STATE_SHORT in
  match now_pressed with
  | BTN_STATE_SHORT => Button_Update_pressed this key b
  | BTN_STATE_NONE => Button_Update_released this key b
  | BTN_STATE_LONG => Some (b, [])
  end.

(** One iteration: load [this->instance[key]], read the pin, run the
    body, store the instance back, append the calls made. *)
Definition Button_Update_key (w : hw) (key : nat) (s : btn_init_t * list call)
  : option (btn_init_t * list call) :=
  arr ← instance (fst s);
  b ← arr !! key;
  read ← port_read (fst s);
  r ← Button_Update_body (fst s) key (read w (port b) (pin b)) b;
  Some (set_instance (fst s) (Some (<[key := fst r]> arr)), snd s ++ snd r).

(** [while (key < this->count) { ...; key++; }] with [todo] iterations
    left. *)
Fixpoint Button_Update_loop (todo key : nat) (w : hw) (s : btn_init_t * list call)
  : option (btn_init_t * list call) :=
  match todo with
  | O => Some s
  | S todo' =>
      s' ← Button_Update_key w key s;
      Button_Update_loop todo' (S key) w s'
  end.

(** [this] is the structure the static pointer refers to (a call before
    a successful [Button_Init] dereferences [NULL] and has no model);
    [w] is the hardware state during the tick. *)
Definition Button_Update (w : hw) (this : btn_init_t)
  : option (btn_init_t * list call) :=
  Button_Update_loop (count this) 0 w (this, []).

(** ** Button_EventGet *)

Definition Button_EventGet (this : btn_init_t) (key : nat) : option btn_state_t :=
  if (count this <=? key)%nat then Some BTN_STATE_NONE
  else
    arr ← instance this;
    b ← arr !! key;
    Some (act (state b)).

(** ** Running the engine *)

(** Successive ticks; the calls of all ticks in order. *)
Fixpoint run (ws : list hw) (s : btn_init_t * list call)
  : option (btn_init_t * list call) :=
  match ws with
  | [] => Some s
  | w :: ws' =>
      r ← Button_Update w (fst s);
      run ws' (fst r, snd s ++ snd r)
  end.

End Engine.

Arguments mk_init {hw} _ _ _ _ _ _ _ _ _.
Arguments instance {hw} _.
Arguments count {hw} _.
Arguments process_time_ms {hw} _.
Arguments debounce_time_ms {hw} _.
Arguments long_press_def_ms {hw} _.
Arguments port_read {hw} _.
Arguments short_release {hw} _.
Arguments long_release {hw} _.
Arguments long_press {hw} _.
Arguments set_instance {hw} _ _.
Arguments BTN_DEBOUNCE_TIME {hw} _.
Arguments BTN_LONG_PRESS_TIME {hw} _ _.
Arguments Button_Init {hw} _ _ _ _.
Arguments Button_Update_pressed {hw} _ _ _.
Arguments Button_Update_released {hw} _ _ _.
Arguments Button_Update_body {hw} _ _ _ _.
Arguments Button_Update_key {hw} _ _ _.
Arguments Button_Update_loop {hw} _ _ _ _.
Arguments Button_Update {hw} _ _.
Arguments Button_EventGet {hw} _ _.
Arguments run {hw} _ _.

(** ** Observations used by the statements *)

(** The instance stored for button [key]. *)
Definition button_at {hw} (this : btn_init_t hw) (key : nat) : option btn_instance_t :=
  arr ← instance this;
  arr !! key.

Definition btn_code_of (c : call) : nat :=
  match c with Invoke _ k => k end.

(** The calls of a trace that carry button code [key]. *)
Definition calls_of (key : nat) (tr : list call) : list call :=
  List.filter (fun c => Nat.eqb (btn_code_of c) key) tr.

(** The calls of a trace that go to handler [f]. *)
Definition calls_to (f : btn_ev_cb_t) (tr : list call) : list call :=
  List.filter (fun c => match c with Invoke g _ => Nat.eqb g f end) tr.

(** What the read function returns for button [b] in hardware state [w]. *)
Definition raw_of {hw} (read : port_read_cb_t hw) (b : btn_instance_t) (w : hw) : Z :=
  read w (port b) (pin b).

(** Whether button [b] reads pressed in hardware state [w]. *)
Definition pressed_at {hw} (read : port_read_cb_t hw) (b : btn_instance_t) (w : hw)
  : bool :=
  negb (raw_of read b w =? 0).

(** The number of ticks of [ws] on which button [b] reads pressed. *)
Definition presses {hw} (read : port_read_cb_t hw) (b : btn_instance_t)
    (ws : list hw) : nat :=
  length (List.filter (pressed_at read b) ws).

(** An engine on which a tick is defined: bound to an array that holds
    its [count] buttons, with a read function and a nonzero period. *)
Definition ready {hw} (this : btn_init_t hw) : Prop :=
  (exists arr, instance this = Some arr /\ (count this <= length arr)%nat) /\
  is_Some (port_read this) /\
  process_time_ms this <> 0.

(** The calls a client can make once the engine is bound; a repeated
    initialisation passes the array the engine is bound to. *)
Inductive api_call (hw : Type) : Type :=
| CallUpdate (w : hw)
| CallInit (init : option (btn_init_t hw)) (cnt : nat).

Arguments CallUpdate {hw} _.
Arguments CallInit {hw} _ _.

Definition api_step {hw} (c : api_call hw) (this : btn_init_t hw)
  : option (btn_init_t hw) :=
  match c with
  | CallUpdate w => r ← Button_Update w this; Some (fst r)
  | CallInit init cnt => r ← Button_Init (Some this) init (instance this) cnt; snd r
  end.

Fixpoint api_run {hw} (cs : list (api_call hw)) (this : btn_init_t hw)
  : option (btn_init_t hw) :=
  match cs with
  | [] => Some this
  | c :: cs' => this' ← api_step c this; api_run cs' this'
  end.

(** ** The v1.0 loop body (the earlier button.c) *)

Module V1.

Record btnInstance_t : Type := mk_btn {
  state : btn_state_t;      (* actual button state *)
  prewState : btn_state_t;  (* debounce button state *)
  locked : bool;            (* debounce button lock *)
  lockCount : Z;            (* uint8_t *)
  longCount : Z;            (* uint16_t *)
  port : Z;
  pin : Z
}.

Inductive call : Type :=
| Button_ShortRelease (btnCode : nat)
| Button_LongPress (btnCode : nat)
| Button_LongRelease (btnCode : nat).

Definition BTN_PROCESSING_TIME_MS : Z := 10.
Definition BTN_DEBOUNCE_TIME_MS : Z := 20.
Definition BTN_LONG_PRESS_TIME_MS : Z := 1000.
Definition BTN_DEBOUNCE_TIME : Z := Z.quot BTN_DEBOUNCE_TIME_MS BTN_PROCESSING_TIME_MS.
Definition BTN_LONG_PRESS_TIME : Z := Z.quot BTN_LONG_PRESS_TIME_MS BTN_PROCESSING_TIME_MS.

(** Branch [BTN_STATE_SHORT == btnNowPressed]. *)
Definition Button_Update_pressed (key : nat) (b : btnInstance_t)
  : btnInstance_t * list call :=
  let b1 :=
    if locked b then b
    else
      let n := uint8 (lockCount b + 1) in
      mk_btn (state b) (prewState b)
             (if n >=? BTN_DEBOUNCE_TIME then true else locked b) n (longCount b)
             (port b) (pin b) in
  let r :=
    if locked b1 && btn_state_eqb BTN_STATE_SHORT (prewState b1) then
      let n := uint16 (longCount b1 + 1) in
      let b2 := mk_btn (state b1) (prewState b1) (locked b1) (lockCount b1) n
                       (port b1) (pin b1) in
      if n >=? BTN_LONG_PRESS_TIME then
        (mk_btn BTN_STATE_LONG (prewState b2) (locked b2) (lockCount b2)
                (longCount b2) (port b2) (pin b2),
         if n =? BTN_LONG_PRESS_TIME then [Button_LongPress key] else [])
      else (b2, [])
    else (b1, []) in
  (mk_btn (state (fst r)) BTN_STATE_SHORT (locked (fst r)) (lockCount (fst r))
          (longCount (fst r)) (port (fst r)) (pin (fst r)),
   snd r).

(** Branch [BTN_STATE_NONE == btnNowPressed]. *)
Definition Button_Update_released (key : nat) (b : btnInstance_t)
  : btnInstance_t * list call :=
  if locked b then
    if negb (lockCount b =? 0) then
      (mk_btn (state b) (prewState b) (locked b) (lockCount b - 1) (longCount b)
              (port b) (pin b), [])
    else
      let b1 := mk_btn (state b) (prewState b) false (lockCount b) (longCount b)
                       (port b) (pin b) in
      if longCount b1 <? BTN_LONG_PRESS_TIME then
        let b2 := mk_btn BTN_STATE_SHORT (prewState b1) (locked b1) (lockCount b1)
                         (longCount b1) (port b1) (pin b1) in
        (b2, if btn_state_eqb BTN_STATE_SHORT (state b2) && (lockCount b2 =? 0)
             then [Button_ShortRelease key] else [])
      else
        (b1, if btn_state_eqb BTN_STATE_LONG (state b1)
             then [Button_LongRelease key] else [])
  else
    (mk_btn (state b) (prewState b) (locked b) (lockCount b) 0 (port b) (pin b), []).

End V1.

(** ** The scenario of the unit test [test_single_button_press] *)

(** The hardware state is the test's timer counter. *)
Definition test_single_button_port_read : port_read_cb_t Z :=
  fun t _ _ =>
    if (10 <=? t) && (t <=? 40) then 1
    else if (1000 <=? t) && (t <=? 2400) then 1
    else 0.

Definition btn_ev_short_release : btn_ev_cb_t := 1%nat.
Definition btn_ev_long_press : btn_ev_cb_t := 2%nat.
Definition btn_ev_long_release : btn_ev_cb_t := 3%nat.

Definition test_btn_inst : btn_instance_t :=
  mk_instance (mk_state BTN_STATE_NONE BTN_STATE_NONE false) 0 0 1000 3735928495 13.

Definition test_btn_init : btn_init_t Z :=
  mk_init None 0%nat 10 20 0 (Some test_single_button_port_read)
          (Some btn_ev_short_release) (Some btn_ev_long_release)
          (Some btn_ev_long_press).

(** The timer values of the first [n] ticks: 0, 10, 20, ... *)
Definition test_ticks (n : nat) : list Z :=
  map (fun i => 10 * Z.of_nat i) (seq 0 n).

(** Initialise as the test does, then tick [n] times. *)
Definition test_single_button_press (n : nat) : option (btn_init_t Z * list call) :=
  r ← Button_Init None (Some test_btn_init) (Some [test_btn_inst]) 1;
  this ← snd r;
  run (test_ticks n) (this, []).

(** ** The scenario of the unit test [test_init_defaults] *)

Definition test_defaults_inst : list btn_instance_t :=
  [ mk_instance (mk_state BTN_STATE_NONE BTN_STATE_NONE false) 0 0 0 3735928495 13;
    mk_instance (mk_state BTN_STATE_NONE BTN_STATE_NONE false) 0 0 2050 305419896 5 ].

(** Minimum required configuration: only the read function is set. *)
Definition test_defaults_init : btn_init_t Z :=
  mk_init None 0%nat 0 0 0 (Some test_single_button_port_read) None None None.

(** The engine the test expects after [Button_Init]. *)
Definition test_defaults_engine : btn_init_t Z :=
  mk_init
    (Some
       [ mk_instance (mk_state BTN_STATE_NONE BTN_STATE_NONE false) 0 0 1000 3735928495 13;
         mk_instance (mk_state BTN_STATE_NONE BTN_STATE_NONE false) 0 0 2050 305419896 5 ])
    2%nat 10 20 1000 (Some test_single_button_port_read) None None None.

(** ** A one-button bench for concrete runs *)

(** The hardware state is the level of the one pin. *)
Definition level_read : port_read_cb_t bool :=
  fun w _ _ => if w then 1 else 0.

(** Period 10 ms, debounce 20 ms (2 ticks), all three handlers set. *)
Definition bench_init : btn_init_t bool :=
  mk_init None 0%nat 10 20 0 (Some level_read)
          (Some btn_ev_short_release) (Some btn_ev_long_release)
          (Some btn_ev_long_press).

(** A zeroed instance with a long-press time of 30 ms (3 ticks). *)
Definition bench_inst : btn_instance_t :=
  mk_instance (mk_state BTN_STATE_NONE BTN_STATE_NONE false) 0 0 30 0 0.

(** The bench engine bound to the array [arr]. *)
Definition bench_engine (arr : list btn_instance_t) : btn_init_t bool :=
  mk_init (Some arr) (length arr) 10 20 1000 (Some level_read)
          (Some btn_ev_short_release) (Some btn_ev_long_release)
          (Some btn_ev_long_press).

(** Initialise the bench, then feed it the pin levels [ws]. *)
Definition bench_run (ws : list bool) : option (btn_init_t bool * list call) :=
  r ← Button_Init None (Some bench_init) (Some [bench_inst]) 1;
  this ← snd r;
  run ws (this, []).

(** What the query returns for the bench button after the levels [ws]. *)
Definition bench_query (ws : list bool) : option btn_state_t :=
  r ← bench_run ws;
  Button_EventGet (fst r) 0.

(** Run the bench over [ws], call [Button_Init] again on the same array,
    then query: the return code and what the query returns. *)
Definition bench_reinit (ws : list bool) : option (Z * btn_state_t) :=
  r ← bench_run ws;
  r2 ← Button_Init (Some (fst r)) (Some bench_init) (instance (fst r)) 1;
  this2 ← snd r2;
  a ← Button_EventGet this2 0;
  Some (fst r2, a).

(** The calls made while the bench runs over [ws]. *)
Definition bench_calls (ws : list bool) : option (list call) :=
  r ← bench_run ws;
  Some (snd r).

(** A bench with two buttons on the same pin: initialise with both, feed
    the pin levels [ws], make the calls [cs], then query button [key].
    The result is the stored active state of the button and what the
    query returns. *)
Definition bench2_query (ws : list bool) (cs : list (api_call bool)) (key : nat)
  : option (btn_state_t * btn_state_t) :=
  r ← Button_Init None (Some bench_init) (Some [bench_inst; bench_inst]) 2;
  this ← snd r;
  r1 ← run ws (this, []);
  this' ← api_run cs (fst r1);
  b ← button_at this' key;
  a ← Button_EventGet this' key;
  Some (act (state b), a).

(** The bench button at rest with active state [a]. *)
Definition bench_idle (a : btn_state_t) : btn_instance_t :=
  mk_instance (mk_state a BTN_STATE_NONE false) 0 0 30 0 0.

(** The bench button while held: locked, debounce buffer full. *)
Definition bench_held (a : btn_state_t) (long : Z) : btn_instance_t :=
  mk_instance (mk_state a BTN_STATE_SHORT true) 2 long 30 0 0.

(** The bench button once the release buffer is used up. *)
Definition bench_releasing (a : btn_state_t) (long : Z) : btn_instance_t :=
  mk_instance (mk_state a BTN_STATE_SHORT true) 0 long 30 0 0.

(** * Properties *)

Ltac body_cases :=
  unfold Button_Update_body, Button_Update_pressed, Button_Update_released,
    BTN_DEBOUNCE_TIME, BTN_LONG_PRESS_TIME in *;
  cbn [set_lock_count set_long_count set_locked set_prew set_act set_state
       state lock_count long_count long_press_time_ms port pin act prew locked
       fst snd] in *.

(** Split a hypothesis [H : body = Some r] into the paths of the body. *)
Ltac body_inv H :=
  body_cases;
  repeat first
    [ progress cbn in H
    | match type of H with
      | context [if ?c then _ else _] => destruct c eqn:?
      end
    | match type of H with
      | context [c_div ?a ?p] => destruct (c_div a p) eqn:?
      end ];
  first [ discriminate H | injection H as <- | idtac ].

(** Turn the boolean tests recorded by a case split into propositions. *)
Ltac bool_to_prop :=
  repeat match goal with
    | H : (_ =? _) = true |- _ => apply Z.eqb_eq in H
    | H : (_ =? _) = false |- _ => apply Z.eqb_neq in H
    | H : (_ >=? _) = true |- _ => rewrite Z.geb_leb in H; apply Z.leb_le in H
    | H : (_ >=? _) = false |- _ => rewrite Z.geb_leb in H; apply Z.leb_gt in H
    | H : (_ <? _) = true |- _ => apply Z.ltb_lt in H
    | H : (_ <? _) = false |- _ => apply Z.ltb_ge in H
    | H : negb _ = true |- _ => apply negb_true_iff in H
    | H : negb _ = false |- _ => apply negb_false_iff in H
    | H : _ && _ = true |- _ => apply andb_true_iff in H; destruct H
    end.

(** Discharge [ready] on a concrete engine. *)
Ltac solve_ready :=
  split; [eexists; split; [reflexivity|cbn; lia]
         |split; [eexists; reflexivity|cbn; lia]].

Section Properties.

Context {hw : Type}.

Implicit Types (this : btn_init_t hw) (b : btn_instance_t) (key : nat)
  (tr : list call) (w : hw).

(** ** Traces *)

Lemma calls_of_app key tr1 tr2 :
  calls_of key (tr1 ++ tr2) = calls_of key tr1 ++ calls_of key tr2.
Proof. unfold calls_of. apply List.filter_app. Qed.

Lemma calls_of_invoke_same cb key : calls_of key (invoke cb key) = invoke cb key.
Proof.
  destruct cb as [f|]; cbn; [|reflexivity].
  rewrite Nat.eqb_refl. reflexivity.
Qed.

Lemma calls_of_invoke_other cb key i : i <> key -> calls_of i (invoke cb key) = [].
Proof.
  intros Hne. destruct cb as [f|]; cbn; [|reflexivity].
  destruct (Nat.eqb_spec key i) as [->|_]; [contradiction|reflexivity].
Qed.

(** ** The loop body *)

Lemma c_div_total a p : p <> 0 -> c_div a p = Some (Z.quot a p).
Proof. intros Hp. unfold c_div. destruct (Z.eqb_spec p 0); [contradiction|reflexivity]. Qed.

(** The body reads the configuration only, not the array pointer. *)
Lemma Button_Update_body_set_instance this arr key raw b :
  Button_Update_body (set_instance this arr) key raw b = Button_Update_body this key raw b.
Proof. reflexivity. Qed.

Lemma Button_Update_body_total this key raw b :
  process_time_ms this <> 0 -> is_Some (Button_Update_body this key raw b).
Proof.
  intros Hp. body_cases.
  destruct (raw =? 0), (locked (state b)); cbn;
    repeat (first [ rewrite (c_div_total _ _ Hp) | progress cbn | case_match ]);
    eauto.
Qed.

(** Every call the body makes carries the button's own code. *)
Lemma Button_Update_body_calls this key raw b r :
  Button_Update_body this key raw b = Some r ->
  exists cb, snd r = invoke cb key.
Proof.
  intros H. body_inv H; cbn; first [ by exists None | by eexists ].
Qed.

Lemma Button_Update_body_calls_same this key raw b r :
  Button_Update_body this key raw b = Some r -> calls_of key (snd r) = snd r.
Proof.
  intros H. destruct (Button_Update_body_calls _ _ _ _ _ H) as [cb ->].
  apply calls_of_invoke_same.
Qed.

Lemma Button_Update_body_calls_other this key raw b r i :
  Button_Update_body this key raw b = Some r -> i <> key -> calls_of i (snd r) = [].
Proof.
  intros H Hne. destruct (Button_Update_body_calls _ _ _ _ _ H) as [cb ->].
  by apply calls_of_invoke_other.
Qed.

(** The body leaves the button's wiring and its threshold alone. *)
Lemma Button_Update_body_frame this key raw b r :
  Button_Update_body this key raw b = Some r ->
  port (fst r) = port b /\ pin (fst r) = pin b /\
  long_press_time_ms (fst r) = long_press_time_ms b.
Proof.
  intros H. body_inv H; cbn; auto.
Qed.

(** ** The loop over the buttons *)

Lemma set_instance_same this arr : instance this = arr -> set_instance this arr = this.
Proof. intros <-. destruct this; reflexivity. Qed.

Lemma Button_Update_key_inv w key this arr tr s' :
  Button_Update_key w key (set_instance this (Some arr), tr) = Some s' ->
  exists b read r,
    arr !! key = Some b /\ port_read this = Some read /\
    Button_Update_body this key (raw_of read b w) b = Some r /\
    s' = (set_instance this (Some (<[key := fst r]> arr)), tr ++ snd r).
Proof.
  unfold Button_Update_key. cbn.
  destruct (arr !! key) as [b|] eqn:Hb; cbn; [|discriminate].
  destruct (port_read this) as [read|] eqn:Hr; cbn; [|discriminate].
  rewrite Button_Update_body_set_instance.
  destruct (Button_Update_body this key (read w (port b) (pin b)) b) as [r|] eqn:Hbody;
    cbn; [|discriminate].
  intros [= <-]. exists b, read, r. repeat split; assumption.
Qed.

(** What the loop from [key] over [todo] buttons does to the array and
    to the trace: the buttons it passes are stepped by the body, each
    contributing its own calls; the others are untouched. *)
Lemma Button_Update_loop_inv todo : forall key w this arr tr s',
  Button_Update_loop todo key w (set_instance this (Some arr), tr) = Some s' ->
  exists arr' tr',
    s' = (set_instance this (Some arr'), tr ++ tr') /\
    length arr' = length arr /\
    (forall i b, arr !! i = Some b -> (key <= i < key + todo)%nat ->
       exists read r, port_read this = Some read /\
         Button_Update_body this i (raw_of read b w) b = Some r /\
         arr' !! i = Some (fst r) /\ calls_of i tr' = snd r) /\
    (forall i b, arr !! i = Some b -> ~ (key <= i < key + todo)%nat ->
       arr' !! i = Some b /\ calls_of i tr' = []).
Proof.
  induction todo as [|todo IH]; intros key w this arr tr s' Hloop.
  - cbn in Hloop. injection Hloop as <-. exists arr, [].
    rewrite app_nil_r. repeat split; auto. intros i b _ Hr. lia.
  - cbn [Button_Update_loop] in Hloop.
    destruct (Button_Update_key w key (set_instance this (Some arr), tr))
      as [s1|] eqn:Hkey; cbn in Hloop; [|discriminate].
    apply Button_Update_key_inv in Hkey as (bk & read & r & Hbk & Hread & Hbody & ->).
    apply IH in Hloop as (arr' & tr2 & -> & Hlen & Hin & Hout).
    pose proof (lookup_lt_Some _ _ _ Hbk) as Hklt.
    exists arr', (snd r ++ tr2). rewrite length_insert in Hlen.
    rewrite app_assoc. split; [reflexivity|]. split; [assumption|]. split.
    + intros i b Hb Hrange. destruct (decide (i = key)) as [->|Hne].
      * assert (b = bk) as -> by congruence.
        destruct (Hout key (fst r)) as [Hk Hc].
        { by apply list_lookup_insert_eq. }
        { lia. }
        exists read, r. rewrite calls_of_app, Hc, app_nil_r.
        repeat split; try assumption.
        eapply Button_Update_body_calls_same; eassumption.
      * destruct (Hin i b) as (read' & r' & Hread' & Hbody' & Hi & Hc).
        { rewrite list_lookup_insert_ne; [assumption|congruence]. }
        { lia. }
        exists read', r'. rewrite calls_of_app, Hc.
        rewrite (Button_Update_body_calls_other _ _ _ _ _ i Hbody Hne).
        repeat split; assumption.
    + intros i b Hb Hrange.
      assert (i <> key) as Hne by lia.
      destruct (Hout i b) as [Hi Hc].
      { rewrite list_lookup_insert_ne; [assumption|congruence]. }
      { lia. }
      rewrite calls_of_app, Hc.
      rewrite (Button_Update_body_calls_other _ _ _ _ _ i Hbody Hne).
      split; [assumption|reflexivity].
Qed.

Lemma Button_Update_loop_total todo : forall key w this arr tr,
  (key + todo <= length arr)%nat ->
  is_Some (port_read this) ->
  process_time_ms this <> 0 ->
  is_Some (Button_Update_loop todo key w (set_instance this (Some arr), tr)).
Proof.
  induction todo as [|todo IH]; intros key w this arr tr Hlen [read Hread] Hp.
  - cbn. eauto.
  - cbn [Button_Update_loop]. unfold Button_Update_key at 1. cbn.
    destruct (lookup_lt_is_Some_2 arr key) as [b Hb]; [lia|].
    rewrite Hb, Hread. cbn.
    destruct (Button_Update_body_total this key (read w (port b) (pin b)) b Hp)
      as [r Hr].
    rewrite Button_Update_body_set_instance, Hr. cbn.
    apply (IH (S key) w this); [rewrite length_insert; lia|eauto|assumption].
Qed.

(** What one tick does, when it is defined. *)
Lemma Button_Update_inv w this arr this' tr :
  instance this = Some arr ->
  Button_Update w this = Some (this', tr) ->
  exists arr',
    this' = set_instance this (Some arr') /\
    length arr' = length arr /\
    (forall i b, arr !! i = Some b -> (i < count this)%nat ->
       exists read r, port_read this = Some read /\
         Button_Update_body this i (raw_of read b w) b = Some r /\
         arr' !! i = Some (fst r) /\ calls_of i tr = snd r) /\
    (forall i b, arr !! i = Some b -> (count this <= i)%nat ->
       arr' !! i = Some b /\ calls_of i tr = []).
Proof.
  intros Harr Hupd. unfold Button_Update in Hupd.
  rewrite <- (set_instance_same this (Some arr) Harr) in Hupd at 2.
  apply Button_Update_loop_inv in Hupd as (arr' & tr' & [= -> ->] & Hlen & Hin & Hout).
  exists arr'. split; [reflexivity|]. split; [assumption|]. split.
  - intros i b Hb Hi. apply Hin; [assumption|lia].
  - intros i b Hb Hi. apply Hout; [assumption|lia].
Qed.

(** A tick is defined on a ready engine and leaves it ready. *)
Lemma Button_Update_total w this :
  ready this ->
  exists arr' tr,
    Button_Update w this = Some (set_instance this (Some arr'), tr) /\
    ready (set_instance this (Some arr')).
Proof.
  intros ((arr & Harr & Hlen) & Hsome & Hp).
  destruct (Button_Update_loop_total (count this) 0 w this arr [])
    as [[this' tr] Hs']; [lia|assumption|assumption|].
  assert (Button_Update w this = Some (this', tr)) as Hupd.
  { unfold Button_Update. by rewrite <- (set_instance_same this (Some arr) Harr) at 2. }
  destruct (Button_Update_inv w this arr this' tr Harr Hupd) as (arr' & -> & Hlen' & _).
  exists arr', tr. split; [assumption|].
  split; [|split; assumption].
  exists arr'. cbn. split; [reflexivity|lia].
Qed.

(** One tick on the whole engine, seen from button [key]. *)
Lemma Button_Update_at w this key b read :
  ready this ->
  button_at this key = Some b ->
  (key < count this)%nat ->
  port_read this = Some read ->
  exists arr' tr r,
    Button_Update w this = Some (set_instance this (Some arr'), tr) /\
    Button_Update_body this key (raw_of read b w) b = Some r /\
    arr' !! key = Some (fst r) /\
    calls_of key tr = snd r /\
    ready (set_instance this (Some arr')).
Proof.
  intros Hready Hb Hkey Hread.
  destruct (Button_Update_total w this Hready) as (arr' & tr & Hupd & Hready').
  destruct Hready as ((arr & Harr & Hlen) & _).
  unfold button_at in Hb. rewrite Harr in Hb. cbn in Hb.
  destruct (Button_Update_inv w this arr _ tr Harr Hupd)
    as (arr1 & Heq & _ & Hin & _).
  assert (arr1 = arr') as ->.
  { apply (f_equal instance) in Heq. cbn in Heq. congruence. }
  destruct (Hin key b Hb Hkey) as (read' & r & Hread' & Hbody & Hk & Hc).
  assert (read' = read) as -> by congruence.
  exists arr', tr, r. split_and!; assumption.
Qed.

(** A run of ticks is defined on a ready engine and leaves it ready. *)
Lemma run_total ws : forall this tr0,
  ready this ->
  exists arr' tr,
    run ws (this, tr0) = Some (set_instance this (Some arr'), tr) /\
    ready (set_instance this (Some arr')).
Proof.
  induction ws as [|w ws IH]; intros this tr0 Hready.
  - destruct Hready as ((arr & Harr & Hlen) & Hrest).
    exists arr, tr0. cbn. rewrite (set_instance_same this (Some arr) Harr).
    split; [reflexivity|]. split; [eauto|assumption].
  - destruct (Button_Update_total w this Hready) as (arr1 & tr1 & Hupd & Hready1).
    cbn [run fst snd]. rewrite Hupd. cbn [mbind option_bind fst snd].
    destruct (IH _ (tr0 ++ tr1) Hready1) as (arr' & tr & Hrun & Hready').
    exists arr', tr. split; assumption.
Qed.

End Properties.

(** ** The release path *)

Section Release.

Context {hw : Type}.

Implicit Types (this : btn_init_t hw) (b : btn_instance_t) (key : nat)
  (tr : list call) (w : hw).

Lemma Button_Update_released_buffer this key b :
  locked (state b) = true -> lock_count b <> 0 ->
  Button_Update_body this key 0 b = Some (set_lock_count b (lock_count b - 1), []).
Proof.
  intros Hl Hc. body_cases. cbn. rewrite Hl.
  destruct (Z.eqb_spec (lock_count b) 0); [contradiction|reflexivity].
Qed.

Lemma Button_Update_released_final this key b t :
  locked (state b) = true -> lock_count b = 0 ->
  BTN_LONG_PRESS_TIME this b = Some t ->
  Button_Update_body this key 0 b =
    Some (if long_count b <? t
          then (set_act (set_locked b false) BTN_STATE_SHORT,
                invoke (short_release this) key)
          else (set_locked b false,
                if btn_state_eqb BTN_STATE_LONG (act (state b))
                then invoke (long_release this) key else [])).
Proof.
  intros Hl Hc Ht. body_cases. cbn. rewrite Hl, Hc, Ht. cbn.
  destruct (long_count b <? t); [reflexivity|].
  destruct (act (state b)); reflexivity.
Qed.

(** C9. A locked button that reads released while its debounce buffer
    [lock_count] is above zero only has the buffer decremented by one on
    this tick: its state bits ([locked], [prew], [act]), [long_count] and
    configuration stay as they were, and no handler is called with its
    code. *)
Theorem locked_release_consumes_buffer w this key b read :
  ready this ->
  button_at this key = Some b ->
  (key < count this)%nat ->
  port_read this = Some read ->
  locked (state b) = true ->
  raw_of read b w = 0 ->
  0 < lock_count b ->
  exists this' tr b',
    Button_Update w this = Some (this', tr) /\
    button_at this' key = Some b' /\
    lock_count b' = lock_count b - 1 /\
    state b' = state b /\
    long_count b' = long_count b /\
    long_press_time_ms b' = long_press_time_ms b /\
    calls_of key tr = [].
Proof.
  intros Hready Hb Hkey Hread Hl Hraw Hc.
  destruct (Button_Update_at w this key b read Hready Hb Hkey Hread)
    as (arr' & tr & r & Hupd & Hbody & Hb' & Hcalls & _).
  rewrite Hraw, Button_Update_released_buffer in Hbody by (assumption || lia).
  injection Hbody as <-.
  exists (set_instance this (Some arr')), tr, (set_lock_count b (lock_count b - 1)).
  repeat split; assumption.
Qed.

(** C2. A locked button that reads released with [lock_count] at zero
    has its release finalised on this tick: [locked] is cleared; when
    [long_count] is below the button's long-press threshold in ticks,
    [act] becomes Short and the short-release handler is called; otherwise
    [act] is kept and the long-release handler is called exactly when
    [act] is Long.  (A handler that is not set is not called.) *)
Theorem locked_release_finalizes w this key b read t :
  ready this ->
  button_at this key = Some b ->
  (key < count this)%nat ->
  port_read this = Some read ->
  locked (state b) = true ->
  raw_of read b w = 0 ->
  lock_count b = 0 ->
  BTN_LONG_PRESS_TIME this b = Some t ->
  exists this' tr b',
    Button_Update w this = Some (this', tr) /\
    button_at this' key = Some b' /\
    locked (state b') = false /\
    (long_count b < t ->
       act (state b') = BTN_STATE_SHORT /\
       calls_of key tr = invoke (short_release this) key) /\
    (t <= long_count b ->
       act (state b') = act (state b) /\
       calls_of key tr =
         if btn_state_eqb BTN_STATE_LONG (act (state b))
         then invoke (long_release this) key else []) /\
    prew (state b') = prew (state b) /\
    lock_count b' = 0 /\
    long_count b' = long_count b.
Proof.
  intros Hready Hb Hkey Hread Hl Hraw Hc Ht.
  destruct (Button_Update_at w this key b read Hready Hb Hkey Hread)
    as (arr' & tr & r & Hupd & Hbody & Hb' & Hcalls & _).
  rewrite Hraw, (Button_Update_released_final this key b t Hl Hc Ht) in Hbody.
  injection Hbody as <-.
  exists (set_instance this (Some arr')), tr. eexists. split; [exact Hupd|]. split; [exact Hb'|].
  rewrite Hcalls.
  destruct (Z.ltb_spec (long_count b) t); cbn; repeat split; intros; try lia; auto.
Qed.

End Release.

Lemma locked_release_consumes_buffer_witness :
  exists this' tr b',
    Button_Update false (bench_engine [bench_held BTN_STATE_NONE 1]) = Some (this', tr) /\
    button_at this' 0 = Some b' /\
    lock_count b' = 2 - 1 /\
    state b' = mk_state BTN_STATE_NONE BTN_STATE_SHORT true /\
    long_count b' = 1 /\
    long_press_time_ms b' = 30 /\
    calls_of 0 tr = [].
Proof.
  apply (locked_release_consumes_buffer false
           (bench_engine [bench_held BTN_STATE_NONE 1]) 0%nat
           (bench_held BTN_STATE_NONE 1) level_read);
    first [ solve_ready | reflexivity | cbn; lia ].
Defined.

Lemma locked_release_finalizes_witness :
  exists this' tr b',
    Button_Update false (bench_engine [bench_releasing BTN_STATE_NONE 1]) = Some (this', tr) /\
    button_at this' 0 = Some b' /\
    locked (state b') = false /\
    (1 < 3 ->
       act (state b') = BTN_STATE_SHORT /\
       calls_of 0 tr = [Invoke btn_ev_short_release 0]) /\
    (3 <= 1 ->
       act (state b') = BTN_STATE_NONE /\
       calls_of 0 tr = []) /\
    prew (state b') = BTN_STATE_SHORT /\
    lock_count b' = 0 /\
    long_count b' = 1.
Proof.
  apply (locked_release_finalizes false
           (bench_engine [bench_releasing BTN_STATE_NONE 1]) 0%nat
           (bench_releasing BTN_STATE_NONE 1) level_read 3);
    first [ solve_ready | reflexivity | cbn; lia ].
Defined.

(** ** Initialisation *)

Section Init.

Context {hw : Type}.

Implicit Types (this init : option (btn_init_t hw)) (cfg e : btn_init_t hw)
  (b : btn_instance_t) (arr : list btn_instance_t).

(** What the initialisation loop from [i] over [todo] buttons does to
    the array. *)
Lemma Button_Init_loop_inv todo : forall i def arr arr',
  Button_Init_loop todo i def arr = Some arr' ->
  length arr' = length arr /\
  (todo <> 0%nat -> (i + todo <= length arr)%nat) /\
  (forall j b, arr !! j = Some b -> (i <= j < i + todo)%nat ->
     arr' !! j = Some (Button_Init_instance def b)) /\
  (forall j b, arr !! j = Some b -> ~ (i <= j < i + todo)%nat ->
     arr' !! j = Some b).
Proof.
  induction todo as [|todo IH]; intros i def arr arr' Hloop.
  - injection Hloop as <-. repeat split; auto; intros; lia.
  - cbn [Button_Init_loop] in Hloop.
    destruct (arr !! i) as [bi|] eqn:Hbi; cbn in Hloop; [|discriminate].
    pose proof (lookup_lt_Some _ _ _ Hbi) as Hlt.
    apply IH in Hloop as (Hlen & Hbound & Hin & Hout).
    rewrite length_insert in Hlen, Hbound.
    split; [assumption|]. split; [destruct todo; lia|]. split.
    + intros j b Hb Hrange. destruct (decide (j = i)) as [->|Hne].
      * assert (b = bi) as -> by congruence.
        apply Hout; [by apply list_lookup_insert_eq|lia].
      * apply Hin; [|lia]. rewrite list_lookup_insert_ne; [assumption|congruence].
    + intros j b Hb Hrange. apply Hout; [|lia].
      rewrite list_lookup_insert_ne; [assumption|lia].
Qed.

Lemma Button_Init_loop_total todo : forall i def arr,
  (i + todo <= length arr)%nat -> is_Some (Button_Init_loop todo i def arr).
Proof.
  induction todo as [|todo IH]; intros i def arr Hlen; cbn [Button_Init_loop].
  - eauto.
  - destruct (lookup_lt_is_Some_2 arr i) as [b Hb]; [lia|].
    rewrite Hb. cbn. apply IH. rewrite length_insert. lia.
Qed.

(** The two outcomes of [Button_Init]. *)
Lemma Button_Init_inv this init inst cnt ret this' :
  Button_Init this init inst cnt = Some (ret, this') ->
  (ret = -1 /\ this' = this /\
   (init = None \/ inst = None \/ cnt = 0%nat \/
    exists cfg, init = Some cfg /\ port_read cfg = None)) \/
  (ret = 0 /\
   exists cfg arr arr',
     init = Some cfg /\ inst = Some arr /\ cnt <> 0%nat /\
     is_Some (port_read cfg) /\
     let p := if process_time_ms cfg =? 0 then 10 else process_time_ms cfg in
     let d := if debounce_time_ms cfg =? 0 then 20 else debounce_time_ms cfg in
     let l := if long_press_def_ms cfg =? 0 then 1000 else long_press_def_ms cfg in
     Button_Init_loop cnt 0 l arr = Some arr' /\
     this' = Some (mk_init (Some arr') cnt p d l (port_read cfg)
                           (short_release cfg) (long_release cfg)
                           (long_press cfg))).
Proof.
  unfold Button_Init. intros H.
  destruct init as [cfg|]; [|left; injection H as <- <-; auto 10].
  destruct inst as [arr|]; [|left; injection H as <- <-; auto 10].
  destruct (port_read cfg) as [read|] eqn:Hread;
    [|left; injection H as <- <-; repeat split; eauto 10].
  destruct (Nat.eqb_spec cnt 0) as [->|Hcnt];
    [left; injection H as <- <-; auto 10|].
  match type of H with
  | context [Button_Init_loop ?n ?i ?l ?a] =>
      destruct (Button_Init_loop n i l a) as [arr'|] eqn:Hloop
  end; cbn in H; [|discriminate].
  injection H as <- <-. right. split; [reflexivity|].
  exists cfg, arr, arr'. rewrite Hread. repeat split; eauto.
Qed.

(** C5. [Button_Init] returns a negative result exactly when the
    configuration pointer is null, or the pointer to the buttons is null,
    or the count is zero, or the read callback is not set; the result is
    then -1 and the engine is left as it was.  In every other case it
    returns 0 and the engine is the supplied configuration bound to the
    supplied array (as the initialisation loop leaves it), with the
    supplied count, read function and handlers. *)
Theorem Button_Init_fails_iff this init inst cnt :
  (forall arr, inst = Some arr -> (cnt <= length arr)%nat) ->
  exists ret this',
    Button_Init this init inst cnt = Some (ret, this') /\
    (ret < 0 <->
       init = None \/ inst = None \/ cnt = 0%nat \/
       exists cfg, init = Some cfg /\ port_read cfg = None) /\
    (ret < 0 -> ret = -1 /\ this' = this) /\
    (~ ret < 0 ->
       ret = 0 /\
       exists cfg arr arr' e,
         init = Some cfg /\ inst = Some arr /\ this' = Some e /\
         Button_Init_loop cnt 0 (long_press_def_ms e) arr = Some arr' /\
         instance e = Some arr' /\ length arr' = length arr /\
         count e = cnt /\
         port_read e = port_read cfg /\
         short_release e = short_release cfg /\
         long_release e = long_release cfg /\
         long_press e = long_press cfg).
Proof.
  intros Hlen.
  assert (is_Some (Button_Init this init inst cnt)) as [[ret this'] Hinit].
  { unfold Button_Init. destruct init as [cfg|]; [|eauto].
    destruct inst as [arr|]; [|eauto].
    destruct (port_read cfg); [|eauto].
    destruct (cnt =? 0)%nat; [eauto|].
    match goal with
    | |- context [Button_Init_loop ?n ?i ?l ?a] =>
        destruct (Button_Init_loop_total n i l a) as [arr' ->]
    end; [specialize (Hlen arr eq_refl); lia|].
    cbn. eauto. }
  exists ret, this'. split; [assumption|].
  apply Button_Init_inv in Hinit
    as [(-> & -> & Hwhy)
       |(-> & cfg & arr & arr' & -> & -> & Hcnt & [read Hread] & Hloop & ->)].
  - repeat split; auto; try lia.
  - cbn in Hloop. split; [|split; [lia|]].
    + split; [lia|]. intros [|[|[|(cfg' & [= <-] & Hnone)]]]; congruence.
    + intros _. split; [reflexivity|].
      exists cfg, arr, arr'. eexists. split; [reflexivity|].
      split; [reflexivity|]. split; [reflexivity|]. cbn.
      apply Button_Init_loop_inv in Hloop as Hinv. destruct Hinv as (Hl & _).
      repeat split; assumption.
Qed.

(** After a successful call every configured button has been through
    the initialisation loop once. *)
Lemma Button_Init_buttons this cfg arr cnt e :
  Button_Init this (Some cfg) (Some arr) cnt = Some (0, Some e) ->
  process_time_ms e = (if process_time_ms cfg =? 0 then 10 else process_time_ms cfg) /\
  debounce_time_ms e = (if debounce_time_ms cfg =? 0 then 20 else debounce_time_ms cfg) /\
  long_press_def_ms e =
    (if long_press_def_ms cfg =? 0 then 1000 else long_press_def_ms cfg) /\
  count e = cnt /\ cnt <> 0%nat /\ (cnt <= length arr)%nat /\
  is_Some (port_read e) /\
  (exists arr', instance e = Some arr' /\ length arr' = length arr) /\
  forall i, (i < cnt)%nat ->
    exists b, arr !! i = Some b /\
      button_at e i = Some (Button_Init_instance (long_press_def_ms e) b).
Proof.
  intros H. apply Button_Init_inv in H
    as [(Hret & _)
       |(_ & cfg' & arr0 & arr' & [= <-] & [= <-] & Hcnt & Hread & Hloop & [= ->])];
    [discriminate|].
  cbn in Hloop. cbn.
  apply Button_Init_loop_inv in Hloop as (Hlen & Hbound & Hin & _).
  specialize (Hbound Hcnt).
  repeat split; try assumption; try lia.
  - exists arr'. split; [reflexivity|assumption].
  - intros i Hi. destruct (lookup_lt_is_Some_2 arr i) as [b Hb]; [lia|].
    exists b. split; [assumption|]. apply Hin; [assumption|lia].
Qed.

(** C7. On a successful initialisation a timing field the caller left
    at zero gets its default (period 10 ms, debounce 20 ms, long press
    1000 ms) and a nonzero value is kept; a button whose own long-press
    time is zero gets the engine's default long-press time and a button
    with a nonzero time keeps it. *)
Theorem Button_Init_defaults this cfg arr cnt e :
  Button_Init this (Some cfg) (Some arr) cnt = Some (0, Some e) ->
  process_time_ms e = (if process_time_ms cfg =? 0 then 10 else process_time_ms cfg) /\
  debounce_time_ms e = (if debounce_time_ms cfg =? 0 then 20 else debounce_time_ms cfg) /\
  long_press_def_ms e =
    (if long_press_def_ms cfg =? 0 then 1000 else long_press_def_ms cfg) /\
  forall i, (i < cnt)%nat ->
    exists b b', arr !! i = Some b /\ button_at e i = Some b' /\
      long_press_time_ms b' =
        (if long_press_time_ms b =? 0 then long_press_def_ms e
         else long_press_time_ms b).
Proof.
  intros H. apply Button_Init_buttons in H as (Hp & Hd & Hl & _ & _ & _ & _ & _ & Hbtn).
  repeat split; try assumption.
  intros i Hi. destruct (Hbtn i Hi) as (b & Hb & Hb').
  exists b, (Button_Init_instance (long_press_def_ms e) b).
  repeat split; assumption.
Qed.

(** C6 (amended). On a successful initialisation every configured
    button has [locked] cleared, [lock_count] and [long_count] at zero and
    the previous raw state None; the active state [act], the one the
    query returns, is not assigned and keeps the value stored in the
    caller's array. *)
Theorem Button_Init_resets_all_but_act this cfg arr cnt e :
  Button_Init this (Some cfg) (Some arr) cnt = Some (0, Some e) ->
  forall i, (i < cnt)%nat ->
    exists b b', arr !! i = Some b /\ button_at e i = Some b' /\
      locked (state b') = false /\
      lock_count b' = 0 /\
      long_count b' = 0 /\
      prew (state b') = BTN_STATE_NONE /\
      act (state b') = act (state b).
Proof.
  intros H i Hi.
  apply Button_Init_buttons in H as (_ & _ & _ & _ & _ & _ & _ & _ & Hbtn).
  destruct (Hbtn i Hi) as (b & Hb & Hb').
  exists b, (Button_Init_instance (long_press_def_ms e) b).
  repeat split; assumption.
Qed.

(** A successfully initialised engine is ready to tick. *)
Lemma Button_Init_ready this cfg arr cnt e :
  Button_Init this (Some cfg) (Some arr) cnt = Some (0, Some e) -> ready e.
Proof.
  intros H.
  apply Button_Init_buttons in H
    as (Hp & _ & _ & Hc & _ & Hlen & Hread & (arr' & Harr' & Hlen') & _).
  repeat split.
  - exists arr'. split; [assumption|]. lia.
  - assumption.
  - rewrite Hp. destruct (Z.eqb_spec (process_time_ms cfg) 0); [discriminate|assumption].
Qed.

(** ** The query *)

(** C8. For an index at or above the configured count the query returns
    None, whatever the engine is bound to; for an index below the count
    it returns the [act] of that button. *)
Theorem Button_EventGet_range (e : btn_init_t hw) (key : nat) :
  ((count e <= key)%nat -> Button_EventGet e key = Some BTN_STATE_NONE) /\
  (forall b, (key < count e)%nat -> button_at e key = Some b ->
     Button_EventGet e key = Some (act (state b))).
Proof.
  unfold Button_EventGet, button_at. split.
  - intros H. destruct (Nat.leb_spec (count e) key); [reflexivity|lia].
  - intros b H Hb. destruct (Nat.leb_spec (count e) key); [lia|].
    destruct (instance e) as [arr|]; cbn in *; [|discriminate].
    rewrite Hb. reflexivity.
Qed.

End Init.

Lemma Button_Init_fails_iff_witness :
  exists ret this',
    Button_Init None (Some test_defaults_init) (Some test_defaults_inst) 2 =
      Some (ret, this') /\
    (ret < 0 <->
       Some test_defaults_init = None \/ Some test_defaults_inst = None \/
       2%nat = 0%nat \/
       exists cfg, Some test_defaults_init = Some cfg /\ port_read cfg = None) /\
    (ret < 0 -> ret = -1 /\ this' = None) /\
    (~ ret < 0 ->
       ret = 0 /\
       exists cfg arr arr' e,
         Some test_defaults_init = Some cfg /\ Some test_defaults_inst = Some arr /\
         this' = Some e /\
         Button_Init_loop 2 0 (long_press_def_ms e) arr = Some arr' /\
         instance e = Some arr' /\ length arr' = length arr /\
         count e = 2%nat /\
         port_read e = port_read cfg /\
         short_release e = short_release cfg /\
         long_release e = long_release cfg /\
         long_press e = long_press cfg).
Proof.
  apply (Button_Init_fails_iff None (Some test_defaults_init)
           (Some test_defaults_inst) 2).
  intros arr [= <-]. cbn. lia.
Defined.

Lemma Button_Init_defaults_witness :
  process_time_ms test_defaults_engine = 10 /\
  debounce_time_ms test_defaults_engine = 20 /\
  long_press_def_ms test_defaults_engine = 1000 /\
  forall i, (i < 2)%nat ->
    exists b b', test_defaults_inst !! i = Some b /\
      button_at test_defaults_engine i = Some b' /\
      long_press_time_ms b' =
        (if long_press_time_ms b =? 0 then long_press_def_ms test_defaults_engine
         else long_press_time_ms b).
Proof.
  apply (Button_Init_defaults None test_defaults_init test_defaults_inst 2
           test_defaults_engine).
  reflexivity.
Defined.

(** C6 (as stated) fails: the bench button is pressed for two ticks and
    released for three, which sets its active state to Short; a second
    successful [Button_Init] on the same array returns 0 and leaves the
    state Short, so the query returns Short, not None. *)
Lemma Button_Init_leaves_act_short :
  bench_query [true; true; false; false; false] = Some BTN_STATE_SHORT /\
  bench_reinit [true; true; false; false; false] = Some (0, BTN_STATE_SHORT) /\
  BTN_STATE_SHORT <> BTN_STATE_NONE.
Proof.
  split; [vm_compute; reflexivity|]. split; [vm_compute; reflexivity|discriminate].
Qed.

Lemma Button_Init_resets_all_but_act_witness :
  exists b b', test_defaults_inst !! 1%nat = Some b /\
    button_at test_defaults_engine 1 = Some b' /\
    locked (state b') = false /\
    lock_count b' = 0 /\
    long_count b' = 0 /\
    prew (state b') = BTN_STATE_NONE /\
    act (state b') = act (state b).
Proof.
  apply (Button_Init_resets_all_but_act None test_defaults_init test_defaults_inst 2
           test_defaults_engine).
  - reflexivity.
  - lia.
Defined.

Lemma Button_EventGet_range_witness :
  Button_EventGet (bench_engine [bench_held BTN_STATE_LONG 5]) 3 = Some BTN_STATE_NONE /\
  Button_EventGet (bench_engine [bench_held BTN_STATE_LONG 5]) 0 = Some BTN_STATE_LONG.
Proof.
  split.
  - apply (proj1 (Button_EventGet_range (bench_engine [bench_held BTN_STATE_LONG 5]) 3)).
    cbn. lia.
  - apply (proj2 (Button_EventGet_range (bench_engine [bench_held BTN_STATE_LONG 5]) 0)
             (bench_held BTN_STATE_LONG 5)).
    + cbn. lia.
    + reflexivity.
Defined.

(** ** The active state across ticks *)

Section Active.

Context {hw : Type}.

Implicit Types (this : btn_init_t hw) (b : btn_instance_t) (key : nat)
  (tr : list call) (w : hw).

(** The only two assignments to [state.act] in the loop body. *)
Lemma Button_Update_body_act this key raw b r :
  Button_Update_body this key raw b = Some r ->
  act (state (fst r)) = act (state b) \/
  (act (state (fst r)) = BTN_STATE_LONG /\ raw <> 0 /\
   locked (state (fst r)) = true /\
   exists t, BTN_LONG_PRESS_TIME this b = Some t /\ t <= long_count (fst r)) \/
  (act (state (fst r)) = BTN_STATE_SHORT /\ raw = 0 /\
   locked (state b) = true /\ locked (state (fst r)) = false /\
   lock_count b = 0 /\
   exists t, BTN_LONG_PRESS_TIME this b = Some t /\ long_count b < t).
Proof.
  intros H. body_inv H; cbn; auto; bool_to_prop; naive_solver lia.
Qed.

Lemma Button_EventGet_in_range this key b :
  (key < count this)%nat -> button_at this key = Some b ->
  Button_EventGet this key = Some (act (state b)).
Proof.
  unfold Button_EventGet, button_at. intros H Hb.
  destruct (Nat.leb_spec (count this) key); [lia|].
  destruct (instance this) as [arr|]; cbn in *; [|discriminate].
  rewrite Hb. reflexivity.
Qed.

(** C4 (amended). After a successful initialisation and any number of
    ticks, one more tick either keeps a button's active state, or sets it
    to Long (on a tick that reads pressed, the button being locked and its
    [long_count] at or above the threshold), or sets it to Short (on a
    tick that reads released and finalises the release with [long_count]
    below the threshold).  No tick writes None, and Short may replace
    Long directly. *)
Theorem act_set_only_to_long_or_short (prev : option (btn_init_t hw))
    (cfg e0 : btn_init_t hw) (arr : list btn_instance_t) (cnt key : nat)
    (ws : list hw) (w : hw) :
  Button_Init prev (Some cfg) (Some arr) cnt = Some (0, Some e0) ->
  (key < cnt)%nat ->
  exists e tr e' tr' read b b',
    run ws (e0, []) = Some (e, tr) /\
    Button_Update w e = Some (e', tr') /\
    port_read e = Some read /\
    button_at e key = Some b /\
    button_at e' key = Some b' /\
    (act (state b') = act (state b) \/
     (act (state b') = BTN_STATE_LONG /\ raw_of read b w <> 0 /\
      locked (state b') = true /\
      exists t, BTN_LONG_PRESS_TIME e b = Some t /\ t <= long_count b') \/
     (act (state b') = BTN_STATE_SHORT /\ raw_of read b w = 0 /\
      locked (state b) = true /\ locked (state b') = false /\
      lock_count b = 0 /\
      exists t, BTN_LONG_PRESS_TIME e b = Some t /\ long_count b < t)).
Proof.
  intros Hinit Hkey.
  pose proof (Button_Init_ready _ _ _ _ _ Hinit) as Hready0.
  apply Button_Init_buttons in Hinit as (_ & _ & _ & Hcnt & _).
  destruct (run_total ws e0 [] Hready0) as (arr1 & tr & Hrun & Hready).
  set (e := set_instance e0 (Some arr1)) in *.
  assert (count e = cnt) as Hcnt' by (cbn; assumption).
  destruct Hready as ((arr1' & Harr1 & Hlen) & [read Hread] & Hp).
  cbn in Harr1. injection Harr1 as <-.
  destruct (lookup_lt_is_Some_2 arr1 key) as [b Hb]; [lia|].
  assert (ready e) as Hready.
  { split; [exists arr1; split; [reflexivity|assumption]|split; [eauto|assumption]]. }
  destruct (Button_Update_at w e key b read Hready) as (arr2 & tr' & r & Hupd & Hbody & Hb' & _);
    [exact Hb|lia|assumption|].
  exists e, tr, (set_instance e (Some arr2)), tr', read, b, (fst r).
  split_and!; try assumption.
  eapply Button_Update_body_act; eassumption.
Qed.

(** A tick never writes None over Short or Long. *)
Lemma Button_Update_keeps_act_set w this this' tr key b :
  button_at this key = Some b ->
  act (state b) <> BTN_STATE_NONE ->
  Button_Update w this = Some (this', tr) ->
  exists b', button_at this' key = Some b' /\ act (state b') <> BTN_STATE_NONE.
Proof.
  unfold button_at. intros Hb Hact Hupd.
  destruct (instance this) as [arr|] eqn:Harr; cbn in Hb; [|discriminate].
  destruct (Button_Update_inv w this arr this' tr Harr Hupd)
    as (arr' & -> & _ & Hin & Hout).
  cbn. destruct (Nat.lt_ge_cases key (count this)) as [Hlt|Hge].
  - destruct (Hin key b Hb Hlt) as (read & r & _ & Hbody & Hk & _).
    exists (fst r). split; [assumption|].
    destruct (Button_Update_body_act _ _ _ _ _ Hbody) as [->|[(-> & _)|(-> & _)]];
      [assumption|discriminate|discriminate].
  - destruct (Hout key b Hb Hge) as [Hk _]. exists b. split; assumption.
Qed.

(** Neither outcome of a repeated [Button_Init] on the bound array
    changes a stored active state. *)
Lemma Button_Init_keeps_act this init cnt ret (next : option (btn_init_t hw)) key b :
  button_at this key = Some b ->
  Button_Init (Some this) init (instance this) cnt = Some (ret, next) ->
  exists this' b',
    next = Some this' /\ button_at this' key = Some b' /\
    act (state b') = act (state b).
Proof.
  intros Hb Hinit.
  apply Button_Init_inv in Hinit
    as [(_ & -> & _)|(_ & cfg & arr & arr' & _ & Harr & _ & _ & Hloop & ->)].
  - exists this, b. repeat split; assumption.
  - cbn in Hloop. unfold button_at in Hb. rewrite Harr in Hb. cbn in Hb.
    apply Button_Init_loop_inv in Hloop as (_ & _ & Hin & Hout).
    eexists. destruct (decide (0 <= key < 0 + cnt)%nat) as [Hr|Hr].
    + eexists. split; [reflexivity|]. split; [exact (Hin key b Hb Hr)|reflexivity].
    + exists b. split; [reflexivity|]. split; [exact (Hout key b Hb Hr)|reflexivity].
Qed.

(** C10 (amended). Once the stored active state of a button is Short or
    Long, no tick and no repeated initialisation on the bound array writes
    None to it, and the query returns that state, hence not None, as long
    as the engine still counts the button (its index is below the
    configured count). *)
Theorem act_never_returns_to_none (cs : list (api_call hw)) :
  forall this this' key b,
    button_at this key = Some b ->
    act (state b) <> BTN_STATE_NONE ->
    api_run cs this = Some this' ->
    exists b',
      button_at this' key = Some b' /\
      act (state b') <> BTN_STATE_NONE /\
      ((key < count this')%nat ->
       Button_EventGet this' key = Some (act (state b')) /\
       Button_EventGet this' key <> Some BTN_STATE_NONE).
Proof.
  induction cs as [|c cs IH]; intros this this' key b Hb Hact Hrun.
  - injection Hrun as <-. exists b. split; [assumption|]. split; [assumption|].
    intros Hkey. rewrite (Button_EventGet_in_range this key b Hkey Hb).
    split; [reflexivity|congruence].
  - cbn [api_run] in Hrun.
    destruct (api_step c this) as [this1|] eqn:Hstep; cbn in Hrun; [|discriminate].
    destruct c as [w|init cnt]; cbn [api_step] in Hstep.
    + destruct (Button_Update w this) as [[this1' tr]|] eqn:Hupd; cbn in Hstep;
        [|discriminate].
      injection Hstep as ->.
      destruct (Button_Update_keeps_act_set _ _ _ _ _ _ Hb Hact Hupd) as (b1 & Hb1 & Hact1).
      exact (IH _ _ _ _ Hb1 Hact1 Hrun).
    + destruct (Button_Init (Some this) init (instance this) cnt)
        as [[ret next]|] eqn:Hinit; cbn in Hstep; [|discriminate].
      destruct (Button_Init_keeps_act _ _ _ _ _ _ _ Hb Hinit)
        as (this1' & b1 & -> & Hb1 & Hact1).
      injection Hstep as ->.
      refine (IH _ _ _ _ Hb1 _ Hrun). congruence.
Qed.

End Active.

(** C4 (as stated) fails: on the bench (debounce 2 ticks, long press 3
    ticks) five pressed ticks make the active state Long; after five
    released, two pressed and two released ticks it is still Long, and
    the next released tick finalises a short press and overwrites Long
    with Short, without passing through None. *)
Lemma act_goes_from_long_to_short :
  bench_query [true; true; true; true; true] = Some BTN_STATE_LONG /\
  bench_query [true; true; true; true; true; false; false; false; false; false;
               true; true; false; false] = Some BTN_STATE_LONG /\
  bench_query [true; true; true; true; true; false; false; false; false; false;
               true; true; false; false; false] = Some BTN_STATE_SHORT.
Proof. split_and!; vm_compute; reflexivity. Qed.

Lemma act_set_only_to_long_or_short_witness :
  exists e tr e' tr' read b b',
    run [true; true] (bench_engine [bench_inst], []) = Some (e, tr) /\
    Button_Update false e = Some (e', tr') /\
    port_read e = Some read /\
    button_at e 0 = Some b /\
    button_at e' 0 = Some b' /\
    (act (state b') = act (state b) \/
     (act (state b') = BTN_STATE_LONG /\ raw_of read b false <> 0 /\
      locked (state b') = true /\
      exists t, BTN_LONG_PRESS_TIME e b = Some t /\ t <= long_count b') \/
     (act (state b') = BTN_STATE_SHORT /\ raw_of read b false = 0 /\
      locked (state b) = true /\ locked (state b') = false /\
      lock_count b = 0 /\
      exists t, BTN_LONG_PRESS_TIME e b = Some t /\ long_count b < t)).
Proof.
  apply (act_set_only_to_long_or_short None bench_init (bench_engine [bench_inst])
           [bench_inst] 1 0 [true; true] false).
  - reflexivity.
  - lia.
Defined.

(** C10 (as stated) fails: both bench buttons are short-pressed, so
    the stored state of button 1 is Short and the query returns Short; a
    second successful [Button_Init] with count 1 leaves the stored state
    Short, but the query for index 1 now returns None through its range
    check. *)
Lemma query_none_after_init_with_smaller_count :
  bench2_query [true; true; false; false; false] [] 1 =
    Some (BTN_STATE_SHORT, BTN_STATE_SHORT) /\
  bench2_query [true; true; false; false; false] [CallInit (Some bench_init) 1] 1 =
    Some (BTN_STATE_SHORT, BTN_STATE_NONE).
Proof. split; vm_compute; reflexivity. Qed.

Lemma act_never_returns_to_none_witness :
  exists b',
    button_at (bench_engine [bench_idle BTN_STATE_SHORT]) 0 = Some b' /\
    act (state b') <> BTN_STATE_NONE /\
    ((0 < count (bench_engine [bench_idle BTN_STATE_SHORT]))%nat ->
     Button_EventGet (bench_engine [bench_idle BTN_STATE_SHORT]) 0 =
       Some (act (state b')) /\
     Button_EventGet (bench_engine [bench_idle BTN_STATE_SHORT]) 0 <>
       Some BTN_STATE_NONE).
Proof.
  apply (act_never_returns_to_none
           [CallInit (Some bench_init) 1; CallUpdate false]
           (bench_engine [bench_held BTN_STATE_SHORT 1])
           (bench_engine [bench_idle BTN_STATE_SHORT]) 0
           (bench_held BTN_STATE_SHORT 1)).
  - reflexivity.
  - discriminate.
  - vm_compute. reflexivity.
Defined.

(** ** Debounce *)

Section Debounce.

Context {hw : Type}.

Implicit Types (this : btn_init_t hw) (b : btn_instance_t) (key : nat)
  (tr : list call) (w : hw) (ws : list hw) (read : port_read_cb_t hw).

Lemma presses_app read b ws1 ws2 :
  presses read b (ws1 ++ ws2) = (presses read b ws1 + presses read b ws2)%nat.
Proof. unfold presses. by rewrite List.filter_app, length_app. Qed.

Lemma presses_released read b ws :
  Forall (fun w => raw_of read b w = 0) ws -> presses read b ws = 0%nat.
Proof.
  unfold presses. induction 1 as [|w ws Hw _ IH]; [reflexivity|].
  cbn. unfold pressed_at at 1. rewrite Hw. exact IH.
Qed.

Lemma presses_pressed read b ws :
  Forall (fun w => raw_of read b w <> 0) ws -> presses read b ws = length ws.
Proof.
  unfold presses. induction 1 as [|w ws Hw _ IH]; [reflexivity|].
  cbn. unfold pressed_at at 1.
  destruct (Z.eqb_spec (raw_of read b w) 0); [contradiction|]. cbn. by rewrite IH.
Qed.

(** The counter of pressed ticks only looks at port and pin. *)
Lemma presses_frame read b b' ws :
  port b' = port b -> pin b' = pin b -> presses read b' ws = presses read b ws.
Proof.
  intros Hport Hpin. unfold presses. f_equal. apply List.filter_ext.
  intros w. unfold pressed_at, raw_of. by rewrite Hport, Hpin.
Qed.

(** A tick on an unlocked button whose debounce counter stays below the
    debounce tick count: the counter grows by at most one, and only on a
    pressed tick; nothing else that is observable changes. *)
Lemma Button_Update_body_unlocked this key raw b d :
  BTN_DEBOUNCE_TIME this = Some d ->
  locked (state b) = false ->
  0 <= lock_count b ->
  lock_count b + (if raw =? 0 then 0 else 1) < d ->
  exists b',
    Button_Update_body this key raw b = Some (b', []) /\
    locked (state b') = false /\
    act (state b') = act (state b) /\
    0 <= lock_count b' <= lock_count b + (if raw =? 0 then 0 else 1) /\
    port b' = port b /\ pin b' = pin b.
Proof.
  intros Hd Hl H0 Hlt. body_cases.
  destruct (raw =? 0) eqn:Hraw; cbn; rewrite Hl; cbn.
  - eexists. split; [reflexivity|]. cbn. repeat split; auto; lia.
  - rewrite Hd. cbn.
    assert (0 <= uint8 (lock_count b + 1) <= lock_count b + 1) as Hwrap.
    { unfold uint8. split; [apply Z.mod_pos_bound; lia|apply Z.mod_le; lia]. }
    destruct (Z.geb_spec (uint8 (lock_count b + 1)) d) as [Hge|_]; [lia|].
    cbn. rewrite Hl. cbn.
    eexists. split; [reflexivity|]. cbn. repeat split; auto; lia.
Qed.

(** While fewer presses have been seen than the debounce tick count, the
    button stays unlocked, keeps its active state and makes no call. *)
Lemma run_few_presses ws : forall this tr0 key b read d,
  ready this ->
  button_at this key = Some b ->
  (key < count this)%nat ->
  port_read this = Some read ->
  BTN_DEBOUNCE_TIME this = Some d ->
  locked (state b) = false ->
  0 <= lock_count b ->
  lock_count b + Z.of_nat (presses read b ws) < d ->
  exists this' tr b',
    run ws (this, tr0) = Some (this', tr0 ++ tr) /\
    button_at this' key = Some b' /\
    locked (state b') = false /\
    act (state b') = act (state b) /\
    calls_of key tr = [].
Proof.
  induction ws as [|w ws IH]; intros this tr0 key b read d
    Hready Hb Hkey Hread Hd Hl H0 Hlt.
  - exists this, [], b. rewrite app_nil_r. repeat split; auto.
  - destruct (Button_Update_at w this key b read Hready Hb Hkey Hread)
      as (arr1 & tr1 & r & Hupd & Hbody & Hb1 & Hc1 & Hready1).
    assert (presses read b (w :: ws) =
            Nat.add (if raw_of read b w =? 0 then 0%nat else 1%nat)
                    (presses read b ws))
      as Hsplit.
    { unfold presses. cbn. unfold pressed_at at 1.
      destruct (raw_of read b w =? 0); reflexivity. }
    rewrite Hsplit in Hlt.
    destruct (Button_Update_body_unlocked this key (raw_of read b w) b d Hd Hl H0)
      as (b1 & Hbody1 & Hl1 & Hact1 & Hrange1 & Hport1 & Hpin1).
    { destruct (raw_of read b w =? 0); lia. }
    rewrite Hbody1 in Hbody. injection Hbody as <-. cbn in Hb1, Hc1.
    destruct (IH (set_instance this (Some arr1)) (tr0 ++ tr1) key b1 read d)
      as (this' & tr & b' & Hrun & Hb' & Hl' & Hact' & Hc'); try assumption.
    + lia.
    + rewrite (presses_frame read b b1 ws Hport1 Hpin1).
      destruct (raw_of read b w =? 0); lia.
    + exists this', (tr1 ++ tr), b'.
      cbn [run fst snd]. rewrite Hupd. cbn [mbind option_bind fst snd].
      rewrite Hrun, app_assoc, calls_of_app, Hc1, Hc'.
      repeat split; auto. congruence.
Qed.

(** C3. From a button that is unlocked with its debounce counter at
    zero (as initialisation leaves it), a single pressed pulse of fewer
    ticks than the debounce tick count, with released ticks before and
    after, never locks the button: at every point of the run it is
    unlocked, its active state is the initial one, and no handler has been
    called with its code. *)
Theorem short_pulse_never_locks ws1 ws2 ws3 ws this key b read d :
  ready this ->
  button_at this key = Some b ->
  (key < count this)%nat ->
  port_read this = Some read ->
  BTN_DEBOUNCE_TIME this = Some d ->
  locked (state b) = false ->
  lock_count b = 0 ->
  Forall (fun w => raw_of read b w = 0) ws1 ->
  Forall (fun w => raw_of read b w <> 0) ws2 ->
  Forall (fun w => raw_of read b w = 0) ws3 ->
  Z.of_nat (length ws2) < d ->
  ws `prefix_of` ws1 ++ ws2 ++ ws3 ->
  exists this' tr b',
    run ws (this, []) = Some (this', tr) /\
    button_at this' key = Some b' /\
    locked (state b') = false /\
    act (state b') = act (state b) /\
    calls_of key tr = [].
Proof.
  intros Hready Hb Hkey Hread Hd Hl Hc H1 H2 H3 Hlen [rest Hrest].
  assert (presses read b ws <= length ws2)%nat as Hle.
  { pose proof (presses_app read b ws rest) as Happ. rewrite <- Hrest in Happ.
    rewrite !presses_app, (presses_released _ _ _ H1), (presses_released _ _ _ H3),
      (presses_pressed _ _ _ H2) in Happ. lia. }
  destruct (run_few_presses ws this [] key b read d)
    as (this' & tr & b' & Hrun & Hrest'); try assumption; try lia.
  exists this', tr, b'. split; assumption.
Qed.

End Debounce.

Lemma short_pulse_never_locks_witness :
  exists this' tr b',
    run [false; true; false] (bench_engine [bench_inst], []) = Some (this', tr) /\
    button_at this' 0 = Some b' /\
    locked (state b') = false /\
    act (state b') = act (state bench_inst) /\
    calls_of 0 tr = [].
Proof.
  apply (short_pulse_never_locks [false] [true] [false; false] [false; true; false]
           (bench_engine [bench_inst]) 0 bench_inst level_read 2).
  - solve_ready.
  - reflexivity.
  - cbn. lia.
  - reflexivity.
  - reflexivity.
  - reflexivity.
  - reflexivity.
  - repeat constructor.
  - repeat constructor. discriminate.
  - repeat constructor.
  - cbn. lia.
  - exists [false]. reflexivity.
Defined.

(** ** Long press *)

Section LongPress.

Context {hw : Type}.

Implicit Types (this : btn_init_t hw) (b : btn_instance_t) (key : nat).

(** A pressed tick on a locked button that was already read pressed:
    whenever the incremented [long_count] is at or above the threshold,
    [act] is set to Long and the long-press handler is called, on the tick
    that reaches the threshold and on every later one alike. *)
Lemma Button_Update_pressed_at_or_above this key raw b t :
  raw <> 0 ->
  locked (state b) = true ->
  prew (state b) = BTN_STATE_SHORT ->
  BTN_LONG_PRESS_TIME this b = Some t ->
  t <= uint16 (long_count b + 1) ->
  Button_Update_body this key raw b =
    Some (set_prew (set_act (set_long_count b (uint16 (long_count b + 1)))
                            BTN_STATE_LONG) BTN_STATE_SHORT,
          invoke (long_press this) key).
Proof.
  intros Hraw Hl Hprew Ht Hle. body_cases.
  destruct (Z.eqb_spec raw 0); [contradiction|]. cbn.
  rewrite Hl. cbn. rewrite Hl, Hprew. cbn. rewrite Ht. cbn.
  destruct (Z.geb_spec (uint16 (long_count b + 1)) t); [reflexivity|lia].
Qed.

(** Below the threshold the same tick only counts. *)
Lemma Button_Update_pressed_below this key raw b t :
  raw <> 0 ->
  locked (state b) = true ->
  prew (state b) = BTN_STATE_SHORT ->
  BTN_LONG_PRESS_TIME this b = Some t ->
  uint16 (long_count b + 1) < t ->
  Button_Update_body this key raw b =
    Some (set_prew (set_long_count b (uint16 (long_count b + 1))) BTN_STATE_SHORT, []).
Proof.
  intros Hraw Hl Hprew Ht Hlt. body_cases.
  destruct (Z.eqb_spec raw 0); [contradiction|]. cbn.
  rewrite Hl. cbn. rewrite Hl, Hprew. cbn. rewrite Ht. cbn.
  destruct (Z.geb_spec (uint16 (long_count b + 1)) t); [lia|reflexivity].
Qed.

End LongPress.

(** The v1.0 body calls [Button_LongPress] only on the tick on which the
    incremented counter equals the threshold. *)
Lemma V1_long_press_once key (b : V1.btnInstance_t) :
  V1.locked b = true ->
  V1.prewState b = BTN_STATE_SHORT ->
  snd (V1.Button_Update_pressed key b) =
    if uint16 (V1.longCount b + 1) =? V1.BTN_LONG_PRESS_TIME
    then [V1.Button_LongPress key] else [].
Proof.
  intros Hl Hprew. unfold V1.Button_Update_pressed. rewrite Hl. cbn.
  rewrite Hl, Hprew. cbn.
  destruct (Z.geb_spec (uint16 (V1.longCount b + 1)) V1.BTN_LONG_PRESS_TIME) as [Hge|Hlt];
    cbn; [reflexivity|].
  destruct (Z.eqb_spec (uint16 (V1.longCount b + 1)) V1.BTN_LONG_PRESS_TIME);
    [lia|reflexivity].
Qed.

(** C1 fails on button.c.  On the bench (debounce 2 ticks, long press
    3 ticks) the pin is held for six ticks after initialisation: the
    fourth tick brings [long_count] to the threshold and calls the
    long-press handler, and the fifth and sixth ticks, with [long_count]
    above the threshold, call it again. *)
Theorem long_press_called_on_every_tick_above_threshold :
  bench_calls [true; true; true] = Some [] /\
  bench_calls [true; true; true; true] = Some [Invoke btn_ev_long_press 0] /\
  bench_calls [true; true; true; true; true; true] =
    Some [Invoke btn_ev_long_press 0; Invoke btn_ev_long_press 0;
          Invoke btn_ev_long_press 0].
Proof. split_and!; vm_compute; reflexivity. Qed.

(** The unit test [test_single_button_press] holds the button from
    1000 ms to 2400 ms: over its 350 ticks the long-press handler is
    called 41 times. *)
Lemma test_single_button_press_long_press_calls :
  (r ← test_single_button_press 350;
   Some (length (calls_to btn_ev_long_press (snd r)),
         length (calls_to btn_ev_short_release (snd r)),
         length (calls_to btn_ev_long_release (snd r)))) =
  Some (41%nat, 1%nat, 1%nat).
Proof. vm_compute. reflexivity. Qed.

(** * Further properties of the engine *)

(** ** Definitions used by the further properties *)

(** The calls the loop body makes for button [key] of the array [arr]
    (the array as it is when the tick starts). *)
Definition body_calls {hw} (this : btn_init_t hw) (read : port_read_cb_t hw)
    (w : hw) (arr : list btn_instance_t) (key : nat) : list call :=
  match arr !! key with
  | Some b =>
      match Button_Update_body this key (raw_of read b w) b with
      | Some r => snd r
      | None => []
      end
  | None => []
  end.

(** The trajectory of one button: the loop body applied to its instance
    tick after tick, with the calls it makes. *)
Fixpoint button_run {hw} (this : btn_init_t hw) (key : nat) (read : port_read_cb_t hw)
    (ws : list hw) (b : btn_instance_t) : option (btn_instance_t * list call) :=
  match ws with
  | [] => Some (b, [])
  | w :: ws' =>
      r ← Button_Update_body this key (raw_of read b w) b;
      r' ← button_run this key read ws' (fst r);
      Some (fst r', snd r ++ snd r')
  end.

(** For a button held from rest, with debounce tick count [d], long-press
    threshold [t] and previous raw state [p]: the pressed tick on which it
    locks, the first pressed tick on which [long_count] is incremented
    (the button must be locked and have been read pressed before), and the
    pressed tick on which [long_count] reaches the threshold. *)
Definition hold_lock_tick (d : Z) : Z := Z.max d 1.

Definition hold_count_tick (d : Z) (p : btn_state_t) : Z :=
  if btn_state_eqb BTN_STATE_SHORT p then Z.max d 1 else Z.max d 2.

Definition hold_long_tick (d t : Z) (p : btn_state_t) : Z :=
  hold_count_tick d p + Z.max t 1 - 1.

(** The instance of a button that was at rest as [b] and has since been
    read pressed on [k] consecutive ticks. *)
Definition held_state (d t : Z) (b : btn_instance_t) (k : Z) : btn_instance_t :=
  mk_instance
    (mk_state
       (if hold_long_tick d t (prew (state b)) <=? k then BTN_STATE_LONG
        else act (state b))
       (if k =? 0 then prew (state b) else BTN_STATE_SHORT)
       (hold_lock_tick d <=? k))
    (Z.min k (hold_lock_tick d))
    (Z.max 0 (k - hold_count_tick d (prew (state b)) + 1))
    (long_press_time_ms b) (port b) (pin b).

(** The counters of a button within their bounds, for debounce tick
    count [d]: [lock_count] between 0 and max(d,1), below max(d,1) while
    the button is unlocked, and [long_count] a [uint16_t]. *)
Definition counters_in_bounds (d : Z) (b : btn_instance_t) : Prop :=
  0 <= lock_count b <= Z.max d 1 /\
  (locked (state b) = false -> lock_count b < Z.max d 1) /\
  0 <= long_count b <= 65535.

(** The bench button right after its release was finalised. *)
Definition bench_released (a : btn_state_t) (long : Z) : btn_instance_t :=
  mk_instance (mk_state a BTN_STATE_SHORT false) 0 long 30 0 0.

(** ** Ticks in sequence *)

Section Ticks.

Context {hw : Type}.

Implicit Types (this : btn_init_t hw) (b : btn_instance_t) (key : nat)
  (tr : list call) (w : hw) (ws : list hw) (read : port_read_cb_t hw)
  (arr : list btn_instance_t).

Lemma run_app ws1 : forall ws2 (s : btn_init_t hw * list call),
  run (ws1 ++ ws2) s = s' ← run ws1 s; run ws2 s'.
Proof.
  induction ws1 as [|w ws1 IH]; intros ws2 s; [reflexivity|].
  cbn [app run]. destruct (Button_Update w (fst s)) as [r|]; cbn; [|reflexivity].
  apply IH.
Qed.

(** The trace of the loop: the calls of the buttons it passes, in the
    order of their indices, each computed on the array as it was before
    the loop touched it. *)
Lemma Button_Update_loop_trace todo : forall key w this arr tr s' read,
  Button_Update_loop todo key w (set_instance this (Some arr), tr) = Some s' ->
  port_read this = Some read ->
  snd s' = tr ++ concat (map (body_calls this read w arr) (seq key todo)).
Proof.
  induction todo as [|todo IH]; intros key w this arr tr s' read Hloop Hread.
  - injection Hloop as <-. cbn. by rewrite app_nil_r.
  - cbn [Button_Update_loop] in Hloop.
    destruct (Button_Update_key w key (set_instance this (Some arr), tr))
      as [s1|] eqn:Hkey; cbn in Hloop; [|discriminate].
    apply Button_Update_key_inv in Hkey as (bk & read' & r & Hbk & Hread' & Hbody & ->).
    assert (read' = read) as -> by congruence.
    rewrite (IH _ _ _ _ _ _ read Hloop Hread).
    cbn [seq map concat]. rewrite <- app_assoc. f_equal. f_equal.
    + unfold body_calls. by rewrite Hbk, Hbody.
    + f_equal. apply map_ext_in. intros i Hi. apply in_seq in Hi.
      unfold body_calls. rewrite list_lookup_insert_ne; [reflexivity|lia].
Qed.

(** A run of ticks, seen from button [key]: any property of the button
    that the loop body keeps holds after the run. *)
Lemma run_button_invariant (P : btn_instance_t -> Prop) this key :
  (forall raw b r, P b -> Button_Update_body this key raw b = Some r -> P (fst r)) ->
  forall ws arr tr0 b s',
    run ws (set_instance this (Some arr), tr0) = Some s' ->
    arr !! key = Some b ->
    P b ->
    exists arr' b',
      fst s' = set_instance this (Some arr') /\
      length arr' = length arr /\
      arr' !! key = Some b' /\ P b'.
Proof.
  intros Hkeep. induction ws as [|w ws IH]; intros arr tr0 b s' Hrun Hb HP.
  - injection Hrun as <-. exists arr, b. repeat split; assumption.
  - cbn [run fst snd] in Hrun.
    destruct (Button_Update w (set_instance this (Some arr))) as [[this1 tr1]|] eqn:Hupd;
      cbn in Hrun; [|discriminate].
    destruct (Button_Update_inv w (set_instance this (Some arr)) arr this1 tr1
                (eq_refl (Some arr)) Hupd)
      as (arr1 & -> & Hlen1 & Hin & Hout).
    change (set_instance (set_instance this (Some arr)) (Some arr1))
      with (set_instance this (Some arr1)) in Hrun.
    assert (exists b1, arr1 !! key = Some b1 /\ P b1) as (b1 & Hb1 & HP1).
    { destruct (Nat.lt_ge_cases key (count this)) as [Hlt|Hge].
      - destruct (Hin key b Hb Hlt) as (read & r & _ & Hbody & Hk & _).
        exists (fst r). split; [assumption|].
        rewrite Button_Update_body_set_instance in Hbody. eauto.
      - destruct (Hout key b Hb Hge) as [Hk _]. eauto. }
    destruct (IH arr1 _ b1 s' Hrun Hb1 HP1) as (arr' & b' & Hs' & Hlen' & Hb' & HP').
    exists arr', b'. repeat split; try assumption. congruence.
Qed.

(** X1. After a successful [Button_Init], every sequence of ticks is
    defined: no tick divides by zero, calls a null read function or
    indexes past the array; the engine stays ready, with the count it was
    given. *)
Theorem ticks_defined_after_init (prev : option (btn_init_t hw))
    (cfg e0 : btn_init_t hw) arr (cnt : nat) ws :
  Button_Init prev (Some cfg) (Some arr) cnt = Some (0, Some e0) ->
  exists e tr,
    run ws (e0, []) = Some (e, tr) /\ ready e /\ count e = cnt.
Proof.
  intros Hinit.
  pose proof (Button_Init_ready _ _ _ _ _ Hinit) as Hready0.
  apply Button_Init_buttons in Hinit as (_ & _ & _ & Hcnt & _).
  destruct (run_total ws e0 [] Hready0) as (arr' & tr & Hrun & Hready).
  exists (set_instance e0 (Some arr')), tr. split_and!; assumption.
Qed.

(** X2. A tick changes nothing but the runtime state of the configured
    buttons: count, timings, read function and handlers are as before, the
    array keeps its length, every button keeps its port, pin and long-press
    time, and an element at or beyond the count is left as it is. *)
Theorem Button_Update_keeps_configuration w this this' tr arr :
  Button_Update w this = Some (this', tr) ->
  instance this = Some arr ->
  count this' = count this /\
  process_time_ms this' = process_time_ms this /\
  debounce_time_ms this' = debounce_time_ms this /\
  long_press_def_ms this' = long_press_def_ms this /\
  port_read this' = port_read this /\
  short_release this' = short_release this /\
  long_release this' = long_release this /\
  long_press this' = long_press this /\
  exists arr',
    instance this' = Some arr' /\ length arr' = length arr /\
    forall i b, arr !! i = Some b ->
      exists b', arr' !! i = Some b' /\
        port b' = port b /\ pin b' = pin b /\
        long_press_time_ms b' = long_press_time_ms b /\
        ((count this <= i)%nat -> b' = b).
Proof.
  intros Hupd Harr.
  destruct (Button_Update_inv w this arr this' tr Harr Hupd)
    as (arr' & -> & Hlen & Hin & Hout).
  cbn. split_and!; try reflexivity.
  exists arr'. split; [reflexivity|]. split; [assumption|].
  intros i b Hb. destruct (Nat.lt_ge_cases i (count this)) as [Hlt|Hge].
  - destruct (Hin i b Hb Hlt) as (read & r & _ & Hbody & Hi & _).
    destruct (Button_Update_body_frame _ _ _ _ _ Hbody) as (Hport & Hpin & Hlp).
    exists (fst r). split_and!; try assumption. lia.
  - destruct (Hout i b Hb Hge) as [Hi _]. exists b. split_and!; auto.
Qed.

(** X3. The handlers are called button by button in the order of the
    indices 0 .. count-1, and what is called for a button is decided by
    the array as it was when the tick started: the trace of a tick is the
    concatenation, in index order, of the calls of the loop body for each
    button. *)
Theorem Button_Update_calls_in_index_order w this this' tr arr read :
  Button_Update w this = Some (this', tr) ->
  instance this = Some arr ->
  port_read this = Some read ->
  tr = concat (map (body_calls this read w arr) (seq 0 (count this))).
Proof.
  intros Hupd Harr Hread. unfold Button_Update in Hupd.
  rewrite <- (set_instance_same this (Some arr) Harr) in Hupd at 2.
  apply (Button_Update_loop_trace _ _ _ _ _ _ _ read) in Hupd; [|assumption].
  exact Hupd.
Qed.

(** X4. No cross-talk: what a tick does to a button, and the calls it
    makes with the button's code, depend only on the configuration, on the
    button's own instance and on what the read function returns for it;
    the other buttons of the array and the rest of the hardware state have
    no influence. *)
Theorem other_buttons_do_not_interfere w1 w2 this arr2 key b read :
  ready this ->
  ready (set_instance this (Some arr2)) ->
  button_at this key = Some b ->
  arr2 !! key = Some b ->
  (key < count this)%nat ->
  port_read this = Some read ->
  raw_of read b w1 = raw_of read b w2 ->
  exists e1 tr1 e2 tr2,
    Button_Update w1 this = Some (e1, tr1) /\
    Button_Update w2 (set_instance this (Some arr2)) = Some (e2, tr2) /\
    button_at e1 key = button_at e2 key /\
    calls_of key tr1 = calls_of key tr2.
Proof.
  intros Hready1 Hready2 Hb1 Hb2 Hkey Hread Hraw.
  destruct (Button_Update_at w1 this key b read Hready1 Hb1 Hkey Hread)
    as (arr1' & tr1 & r1 & Hupd1 & Hbody1 & Hk1 & Hc1 & _).
  destruct (Button_Update_at w2 (set_instance this (Some arr2)) key b read Hready2)
    as (arr2' & tr2 & r2 & Hupd2 & Hbody2 & Hk2 & Hc2 & _); try assumption.
  rewrite Button_Update_body_set_instance, <- Hraw, Hbody1 in Hbody2.
  injection Hbody2 as <-.
  eexists _, tr1, _, tr2. split; [exact Hupd1|]. split; [exact Hupd2|].
  cbn. split; congruence.
Qed.

(** X5. An engine at rest is a fixed point of the tick: when every
    configured button is unlocked with [long_count] zero and reads
    released, the tick returns the engine unchanged and calls nothing. *)
Theorem Button_Update_at_rest w this arr read :
  ready this ->
  instance this = Some arr ->
  port_read this = Some read ->
  (forall i b, (i < count this)%nat -> arr !! i = Some b ->
     locked (state b) = false /\ long_count b = 0 /\ raw_of read b w = 0) ->
  Button_Update w this = Some (this, []).
Proof.
  intros Hready Harr Hread Hrest.
  destruct (Button_Update_total w this Hready) as (arr' & tr & Hupd & _).
  rewrite Hupd.
  assert (forall i b, (i < count this)%nat -> arr !! i = Some b ->
            Button_Update_body this i (raw_of read b w) b = Some (b, [])) as Hstep.
  { intros i b Hi Hb. destruct (Hrest i b Hi Hb) as (Hl & Hlong & Hraw).
    rewrite Hraw. body_cases. cbn. rewrite Hl.
    destruct b as [st lc lg lp po pi]. cbn in Hlong. subst lg. reflexivity. }
  destruct (Button_Update_inv w this arr _ tr Harr Hupd) as (arr1 & Heq & Hlen & Hin & Hout).
  assert (arr1 = arr') as ->.
  { apply (f_equal instance) in Heq. cbn in Heq. congruence. }
  assert (arr' = arr) as ->.
  { apply list_eq. intros i. destruct (arr !! i) as [b|] eqn:Hb.
    - destruct (Nat.lt_ge_cases i (count this)) as [Hlt|Hge].
      + destruct (Hin i b Hb Hlt) as (read' & r & Hread' & Hbody & Hi & _).
        assert (read' = read) as -> by congruence.
        rewrite (Hstep i b Hlt Hb) in Hbody. injection Hbody as <-. exact Hi.
      + exact (proj1 (Hout i b Hb Hge)).
    - apply lookup_ge_None. apply lookup_ge_None in Hb. lia. }
  assert (tr = []) as ->.
  { unfold Button_Update in Hupd.
    rewrite <- (set_instance_same this (Some arr) Harr) in Hupd at 2.
    apply (Button_Update_loop_trace _ _ _ _ _ _ _ read) in Hupd; [|assumption].
    cbn in Hupd. rewrite Hupd. apply concat_nil_Forall, List.Forall_forall.
    intros l Hl. apply in_map_iff in Hl as (i & <- & Hi). apply in_seq in Hi.
    unfold body_calls. destruct (arr !! i) as [b|] eqn:Hb; [|reflexivity].
    by rewrite (Hstep i b) by (lia || assumption). }
  by rewrite (set_instance_same this (Some arr) Harr).
Qed.

End Ticks.

Lemma ticks_defined_after_init_witness :
  exists e tr,
    run [true; false] (bench_engine [bench_inst], []) = Some (e, tr) /\
    ready e /\ count e = 1%nat.
Proof.
  apply (ticks_defined_after_init None bench_init (bench_engine [bench_inst])
           [bench_inst] 1 [true; false]).
  reflexivity.
Defined.

Lemma Button_Update_keeps_configuration_witness :
  let this := bench_engine [bench_releasing BTN_STATE_NONE 1; bench_idle BTN_STATE_LONG] in
  let this' := bench_engine [bench_released BTN_STATE_SHORT 1; bench_idle BTN_STATE_LONG] in
  count this' = count this /\
  process_time_ms this' = process_time_ms this /\
  debounce_time_ms this' = debounce_time_ms this /\
  long_press_def_ms this' = long_press_def_ms this /\
  port_read this' = port_read this /\
  short_release this' = short_release this /\
  long_release this' = long_release this /\
  long_press this' = long_press this /\
  exists arr',
    instance this' = Some arr' /\
    length arr' =
      length [bench_releasing BTN_STATE_NONE 1; bench_idle BTN_STATE_LONG] /\
    forall i b,
      [bench_releasing BTN_STATE_NONE 1; bench_idle BTN_STATE_LONG] !! i = Some b ->
      exists b', arr' !! i = Some b' /\
        port b' = port b /\ pin b' = pin b /\
        long_press_time_ms b' = long_press_time_ms b /\
        ((count this <= i)%nat -> b' = b).
Proof.
  apply (Button_Update_keeps_configuration false
           (bench_engine [bench_releasing BTN_STATE_NONE 1; bench_idle BTN_STATE_LONG])
           (bench_engine [bench_released BTN_STATE_SHORT 1; bench_idle BTN_STATE_LONG])
           [Invoke btn_ev_short_release 0]).
  - vm_compute. reflexivity.
  - reflexivity.
Defined.

Lemma Button_Update_calls_in_index_order_witness :
  [Invoke btn_ev_short_release 0; Invoke btn_ev_long_release 1] =
  concat
    (map (body_calls
            (bench_engine [bench_releasing BTN_STATE_NONE 1; bench_releasing BTN_STATE_LONG 5])
            level_read false
            [bench_releasing BTN_STATE_NONE 1; bench_releasing BTN_STATE_LONG 5])
         (seq 0 (count (bench_engine [bench_releasing BTN_STATE_NONE 1;
                                      bench_releasing BTN_STATE_LONG 5])))).
Proof.
  apply (Button_Update_calls_in_index_order false
           (bench_engine [bench_releasing BTN_STATE_NONE 1; bench_releasing BTN_STATE_LONG 5])
           (bench_engine [bench_released BTN_STATE_SHORT 1; bench_released BTN_STATE_LONG 5])).
  - vm_compute. reflexivity.
  - reflexivity.
  - reflexivity.
Defined.

Lemma other_buttons_do_not_interfere_witness :
  exists e1 tr1 e2 tr2,
    Button_Update true (bench_engine [bench_held BTN_STATE_NONE 2; bench_idle BTN_STATE_NONE]) =
      Some (e1, tr1) /\
    Button_Update true
      (set_instance (bench_engine [bench_held BTN_STATE_NONE 2; bench_idle BTN_STATE_NONE])
                    (Some [bench_held BTN_STATE_NONE 2; bench_releasing BTN_STATE_LONG 7])) =
      Some (e2, tr2) /\
    button_at e1 0 = button_at e2 0 /\
    calls_of 0 tr1 = calls_of 0 tr2.
Proof.
  apply (other_buttons_do_not_interfere true true
           (bench_engine [bench_held BTN_STATE_NONE 2; bench_idle BTN_STATE_NONE])
           [bench_held BTN_STATE_NONE 2; bench_releasing BTN_STATE_LONG 7]
           0 (bench_held BTN_STATE_NONE 2) level_read);
    first [ solve_ready | reflexivity | cbn; lia ].
Defined.

Lemma Button_Update_at_rest_witness :
  Button_Update false (bench_engine [bench_idle BTN_STATE_SHORT; bench_idle BTN_STATE_NONE]) =
    Some (bench_engine [bench_idle BTN_STATE_SHORT; bench_idle BTN_STATE_NONE], []).
Proof.
  apply (Button_Update_at_rest false
           (bench_engine [bench_idle BTN_STATE_SHORT; bench_idle BTN_STATE_NONE])
           [bench_idle BTN_STATE_SHORT; bench_idle BTN_STATE_NONE] level_read).
  - solve_ready.
  - reflexivity.
  - reflexivity.
  - intros [|[|i]] b Hi Hb; cbn in Hi, Hb; [injection Hb as <-..|lia]; repeat split.
Defined.

(** ** Timing of one button *)

(** Comparisons recorded by a case split, as propositions. *)
Ltac cmp_to_prop :=
  bool_to_prop;
  repeat match goal with
    | H : (_ <=? _) = true |- _ => apply Z.leb_le in H
    | H : (_ <=? _) = false |- _ => apply Z.leb_gt in H
    | H : btn_state_eqb _ _ = _ |- _ => cbn in H
    end.

(** Decide every test of the goal, then close the case by arithmetic. *)
Ltac split_tests :=
  repeat first
    [ progress cbn
    | match goal with
      | H : c_div _ _ = Some _ |- _ => rewrite H
      end
    | match goal with
      | |- context [if ?c then _ else _] => destruct c eqn:?
      end ].

Lemma some_instance_eq {C : Type} (a a' p p' : btn_state_t) (l l' : bool)
    (lc lc' lg lg' lp po pi : Z) (c c' : C) :
  a = a' -> p = p' -> l = l' -> lc = lc' -> lg = lg' -> c = c' ->
  Some (mk_instance (mk_state a p l) lc lg lp po pi, c) =
  Some (mk_instance (mk_state a' p' l') lc' lg' lp po pi, c').
Proof. by intros -> -> -> -> -> ->. Qed.

Ltac close_case :=
  unfold set_prew, set_act, set_locked, set_long_count, set_lock_count, set_state;
  cbn [state lock_count long_count long_press_time_ms port pin act prew locked fst snd];
  repeat match goal with
    | |- context [?x <=? ?y] => destruct (x <=? y) eqn:?
    end;
  cmp_to_prop; unfold uint8, uint16 in *;
  first [ discriminate
        | exfalso; Z.div_mod_to_equations; lia
        | apply some_instance_eq;
          first [ reflexivity | Z.div_mod_to_equations; lia ] ].

Section Timing.

Context {hw : Type}.

Implicit Types (this : btn_init_t hw) (b : btn_instance_t) (key : nat)
  (tr : list call) (w : hw) (ws : list hw) (read : port_read_cb_t hw)
  (arr : list btn_instance_t).

Lemma uint8_range z : 0 <= uint8 z < 256.
Proof. unfold uint8. apply Z.mod_pos_bound. lia. Qed.

Lemma uint8_small z : 0 <= z < 256 -> uint8 z = z.
Proof. unfold uint8. apply Z.mod_small. Qed.

Lemma uint16_range z : 0 <= uint16 z < 65536.
Proof. unfold uint16. apply Z.mod_pos_bound. lia. Qed.

Lemma uint16_small z : 0 <= z < 65536 -> uint16 z = z.
Proof. unfold uint16. apply Z.mod_small. Qed.

Lemma c_div_defined a p q : c_div a p = Some q -> p <> 0 /\ q = Z.quot a p.
Proof.
  unfold c_div. destruct (Z.eqb_spec p 0); [discriminate|].
  intros [= <-]. split; [assumption|reflexivity].
Qed.

Lemma button_run_app this key read ws1 : forall ws2 b,
  button_run this key read (ws1 ++ ws2) b =
    r1 ← button_run this key read ws1 b;
    r2 ← button_run this key read ws2 (fst r1);
    Some (fst r2, snd r1 ++ snd r2).
Proof.
  induction ws1 as [|w ws1 IH]; intros ws2 b.
  - cbn. destruct (button_run this key read ws2 b) as [[b2 t2]|]; reflexivity.
  - cbn [app button_run].
    destruct (Button_Update_body this key (raw_of read b w) b) as [r|]; cbn; [|reflexivity].
    rewrite IH.
    destruct (button_run this key read ws1 (fst r)) as [r1|]; cbn; [|reflexivity].
    destruct (button_run this key read ws2 (fst r1)) as [r2|]; cbn; [|reflexivity].
    by rewrite app_assoc.
Qed.

Lemma button_run_set_instance this a key read ws : forall b,
  button_run (set_instance this a) key read ws b = button_run this key read ws b.
Proof.
  induction ws as [|w ws IH]; intros b; [reflexivity|].
  cbn [button_run]. rewrite Button_Update_body_set_instance.
  destruct (Button_Update_body this key (raw_of read b w) b) as [r|]; cbn; [|reflexivity].
  by rewrite IH.
Qed.

(** A run of the engine, seen from one button, is the trajectory of that
    button. *)
Lemma run_button ws : forall this tr0 key b read,
  ready this ->
  button_at this key = Some b ->
  (key < count this)%nat ->
  port_read this = Some read ->
  exists arr' tr r,
    run ws (this, tr0) = Some (set_instance this (Some arr'), tr0 ++ tr) /\
    button_run this key read ws b = Some r /\
    arr' !! key = Some (fst r) /\
    calls_of key tr = snd r /\
    ready (set_instance this (Some arr')).
Proof.
  induction ws as [|w ws IH]; intros this tr0 key b read Hready Hb Hkey Hread.
  - destruct Hready as ((arr & Harr & Hlen) & Hrest).
    unfold button_at in Hb. rewrite Harr in Hb. cbn in Hb.
    exists arr, [], (b, []). rewrite app_nil_r, (set_instance_same this (Some arr) Harr).
    split_and!; try done. split; [eauto|assumption].
  - destruct (Button_Update_at w this key b read Hready Hb Hkey Hread)
      as (arr1 & tr1 & r1 & Hupd & Hbody & Hb1 & Hc1 & Hready1).
    destruct (IH (set_instance this (Some arr1)) (tr0 ++ tr1) key (fst r1) read)
      as (arr' & tr & r & Hrun & Hbrun & Hb' & Hc' & Hready'); try assumption.
    exists arr', (tr1 ++ tr), (fst r, snd r1 ++ snd r).
    cbn [run fst snd button_run]. rewrite Hupd, Hbody. cbn [mbind option_bind fst snd].
    rewrite button_run_set_instance in Hbrun.
    rewrite Hrun, Hbrun. cbn.
    rewrite app_assoc, calls_of_app, Hc1, Hc'. split_and!; done.
Qed.

(** One more pressed tick on a held button. *)
Lemma held_state_step this key raw b d t k :
  raw <> 0 ->
  BTN_DEBOUNCE_TIME this = Some d ->
  BTN_LONG_PRESS_TIME this b = Some t ->
  0 <= d <= 255 ->
  0 <= k < 65535 ->
  Button_Update_body this key raw (held_state d t b k) =
    Some (held_state d t b (k + 1),
          if hold_long_tick d t (prew (state b)) <=? k + 1
          then invoke (long_press this) key else []).
Proof.
  intros Hraw Hd Ht Hdr Hk.
  unfold held_state, hold_long_tick, hold_count_tick, hold_lock_tick.
  body_cases. destruct (Z.eqb_spec raw 0); [contradiction|].
  destruct (prew (state b)) eqn:Hp; cbn.
  all: split_tests.
  all: close_case.
Qed.

Lemma held_state_0 b d t :
  locked (state b) = false -> lock_count b = 0 -> long_count b = 0 ->
  held_state d t b 0 = b.
Proof.
  intros Hl Hc Hg. destruct b as [[a p l] lc lg lp po pi]. cbn in *. subst.
  unfold held_state, hold_long_tick, hold_count_tick, hold_lock_tick. cbn.
  destruct p; cbn;
    repeat match goal with
      | |- context [?x <=? ?y] => destruct (Z.leb_spec x y)
      end; try lia; f_equal; lia.
Qed.

(** A held button, tick after tick: the state after [k] pressed ticks
    and the calls made on the way. *)
Lemma button_run_hold this key read b d t ws : forall k,
  BTN_DEBOUNCE_TIME this = Some d ->
  BTN_LONG_PRESS_TIME this b = Some t ->
  0 <= d <= 255 ->
  Forall (fun w => raw_of read b w <> 0) ws ->
  0 <= k ->
  k + Z.of_nat (length ws) <= 65535 ->
  button_run this key read ws (held_state d t b k) =
    Some (held_state d t b (k + Z.of_nat (length ws)),
          concat (repeat (invoke (long_press this) key)
                    (Z.to_nat (k + Z.of_nat (length ws)
                               - Z.max (hold_long_tick d t (prew (state b))) (k + 1)
                               + 1)))).
Proof.
  induction ws as [|w ws IH]; intros k Hd Ht Hdr Hws Hk Hlen.
  - cbn. rewrite Z.add_0_r. do 2 f_equal.
    replace (Z.to_nat _) with 0%nat by lia. reflexivity.
  - apply Forall_cons in Hws as [Hw Hws]. cbn [button_run length] in *.
    change (raw_of read (held_state d t b k) w) with (raw_of read b w).
    rewrite (held_state_step this key _ b d t k Hw Hd Ht Hdr) by lia.
    cbn [mbind option_bind fst snd].
    rewrite (IH (k + 1)) by (assumption || lia). cbn.
    replace (k + 1 + Z.of_nat (length ws)) with (k + Z.of_nat (S (length ws))) by lia.
    do 2 f_equal.
    set (F := hold_long_tick d t (prew (state b))).
    destruct (Z.leb_spec F (k + 1)).
    + replace (Z.to_nat (k + Z.of_nat (S (length ws)) - Z.max F (k + 1) + 1))
        with (S (Z.to_nat (k + Z.of_nat (S (length ws)) - Z.max F (k + 1 + 1) + 1)))
        by lia.
      reflexivity.
    + replace (Z.max F (k + 1 + 1)) with (Z.max F (k + 1)) by lia. reflexivity.
Qed.

(** A locked button read released while its buffer lasts. *)
Lemma button_run_release_buffer this key read ws : forall b,
  Forall (fun w => raw_of read b w = 0) ws ->
  locked (state b) = true ->
  Z.of_nat (length ws) <= lock_count b ->
  button_run this key read ws b =
    Some (set_lock_count b (lock_count b - Z.of_nat (length ws)), []).
Proof.
  induction ws as [|w ws IH]; intros b Hws Hl Hlen.
  - cbn. rewrite Z.sub_0_r. by destruct b.
  - apply Forall_cons in Hws as [Hw Hws]. cbn [button_run length] in *.
    rewrite Hw, (Button_Update_released_buffer this key b Hl) by lia.
    cbn [mbind option_bind fst snd].
    rewrite (IH (set_lock_count b (lock_count b - 1))); [|exact Hws|exact Hl|cbn; lia].
    cbn. unfold set_lock_count. cbn. do 3 f_equal. lia.
Qed.

(** ... and through the tick that finalises the release. *)
Lemma button_run_release this key read ws b t :
  Forall (fun w => raw_of read b w = 0) ws ->
  locked (state b) = true ->
  0 <= lock_count b ->
  Z.of_nat (length ws) = lock_count b + 1 ->
  BTN_LONG_PRESS_TIME this b = Some t ->
  button_run this key read ws b =
    Some (if long_count b <? t
          then (set_act (set_locked (set_lock_count b 0) false) BTN_STATE_SHORT,
                invoke (short_release this) key)
          else (set_locked (set_lock_count b 0) false,
                if btn_state_eqb BTN_STATE_LONG (act (state b))
                then invoke (long_release this) key else [])).
Proof.
  intros Hws Hl H0 Hlen Ht.
  rewrite <- (take_drop (Z.to_nat (lock_count b)) ws).
  assert (length (take (Z.to_nat (lock_count b)) ws) = Z.to_nat (lock_count b)) as Htake.
  { rewrite length_take. lia. }
  assert (length (drop (Z.to_nat (lock_count b)) ws) = 1%nat) as Hdrop.
  { rewrite length_drop. lia. }
  destruct (drop (Z.to_nat (lock_count b)) ws) as [|w [|? ?]] eqn:Hd; try discriminate.
  assert (raw_of read b w = 0) as Hw.
  { pose proof (Forall_drop _ (Z.to_nat (lock_count b)) _ Hws) as Hf.
    rewrite Hd in Hf. by apply Forall_cons in Hf as [Hw _]. }
  rewrite button_run_app.
  rewrite (button_run_release_buffer this key read _ b);
    [|by apply Forall_take|assumption|lia].
  rewrite Htake. cbn [mbind option_bind fst snd button_run].
  change (raw_of read (set_lock_count b _) w) with (raw_of read b w). rewrite Hw.
  rewrite (Button_Update_released_final this key _ t); [|exact Hl|cbn; lia|exact Ht].
  cbn. replace (lock_count b - Z.of_nat (Z.to_nat (lock_count b))) with 0 by lia.
  destruct (long_count b <? t); cbn; by rewrite app_nil_r.
Qed.

Lemma hold_long_tick_pos d t p : 1 <= hold_long_tick d t p.
Proof.
  unfold hold_long_tick, hold_count_tick.
  destruct (btn_state_eqb BTN_STATE_SHORT p); lia.
Qed.

(** X6. A button at rest (unlocked, both counters zero) that is read
    pressed on [k] consecutive ticks is, after them, in the state
    [held_state]: it locks on pressed tick max(d,1); [long_count] counts
    the pressed ticks from tick max(d,2) on (from max(d,1) if the previous
    raw state was already pressed); the active state becomes Long on tick
    F = that tick + max(t,1) - 1, and the long-press handler is called on
    tick F and on every pressed tick after it, k - F + 1 times in all. *)
Theorem hold_from_rest this key b read d t ws :
  ready this ->
  button_at this key = Some b ->
  (key < count this)%nat ->
  port_read this = Some read ->
  BTN_DEBOUNCE_TIME this = Some d ->
  BTN_LONG_PRESS_TIME this b = Some t ->
  0 <= d <= 255 ->
  locked (state b) = false ->
  lock_count b = 0 ->
  long_count b = 0 ->
  Forall (fun w => raw_of read b w <> 0) ws ->
  Z.of_nat (length ws) <= 65535 ->
  exists this' tr,
    run ws (this, []) = Some (this', tr) /\
    button_at this' key = Some (held_state d t b (Z.of_nat (length ws))) /\
    calls_of key tr =
      concat (repeat (invoke (long_press this) key)
                (Z.to_nat (Z.of_nat (length ws)
                           - hold_long_tick d t (prew (state b)) + 1))).
Proof.
  intros Hready Hb Hkey Hread Hd Ht Hdr Hl Hc Hg Hws Hlen.
  destruct (run_button ws this [] key b read Hready Hb Hkey Hread)
    as (arr' & tr & r & Hrun & Hbrun & Hb' & Hcalls & _).
  rewrite <- (held_state_0 b d t Hl Hc Hg) in Hbrun at 1.
  rewrite (button_run_hold this key read b d t ws 0 Hd Ht Hdr Hws) in Hbrun by lia.
  injection Hbrun as <-. cbn in Hb', Hcalls.
  pose proof (hold_long_tick_pos d t (prew (state b))).
  rewrite Z.max_l in Hcalls by lia.
  exists (set_instance this (Some arr')), tr. split_and!; assumption.
Qed.

(** X7. Release takes as many released ticks as the debounce buffer
    holds, plus one: while [j <= lock_count] released ticks have passed
    the button is still locked, only [lock_count] has gone down by [j] and
    nothing was called; the tick after the buffer is used up unlocks the
    button and reports the release (short below the threshold, long at or
    above it when the active state is Long). *)
Theorem release_takes_buffer_plus_one this key b read t ws :
  ready this ->
  button_at this key = Some b ->
  (key < count this)%nat ->
  port_read this = Some read ->
  BTN_LONG_PRESS_TIME this b = Some t ->
  locked (state b) = true ->
  0 <= lock_count b ->
  Forall (fun w => raw_of read b w = 0) ws ->
  Z.of_nat (length ws) = lock_count b + 1 ->
  (forall j, (j < length ws)%nat ->
     exists this' tr,
       run (take j ws) (this, []) = Some (this', tr) /\
       button_at this' key = Some (set_lock_count b (lock_count b - Z.of_nat j)) /\
       calls_of key tr = []) /\
  exists this' tr b',
    run ws (this, []) = Some (this', tr) /\
    button_at this' key = Some b' /\
    locked (state b') = false /\
    lock_count b' = 0 /\
    long_count b' = long_count b /\
    (long_count b < t ->
       act (state b') = BTN_STATE_SHORT /\
       calls_of key tr = invoke (short_release this) key) /\
    (t <= long_count b ->
       act (state b') = act (state b) /\
       calls_of key tr =
         if btn_state_eqb BTN_STATE_LONG (act (state b))
         then invoke (long_release this) key else []).
Proof.
  intros Hready Hb Hkey Hread Ht Hl H0 Hws Hlen. split.
  - intros j Hj.
    destruct (run_button (take j ws) this [] key b read Hready Hb Hkey Hread)
      as (arr' & tr & r & Hrun & Hbrun & Hb' & Hcalls & _).
    rewrite (button_run_release_buffer this key read _ b) in Hbrun;
      [|by apply Forall_take|assumption|rewrite length_take; lia].
    injection Hbrun as <-. cbn in Hb', Hcalls.
    rewrite length_take, Nat.min_l in Hb' by lia.
    exists (set_instance this (Some arr')), tr. split_and!; assumption.
  - destruct (run_button ws this [] key b read Hready Hb Hkey Hread)
      as (arr' & tr & r & Hrun & Hbrun & Hb' & Hcalls & _).
    rewrite (button_run_release this key read ws b t Hws Hl H0 Hlen Ht) in Hbrun.
    injection Hbrun as <-.
    exists (set_instance this (Some arr')), tr. eexists.
    split; [exact Hrun|]. split; [exact Hb'|]. rewrite Hcalls.
    destruct (Z.ltb_spec (long_count b) t); cbn; split_and!; intros; try lia; auto.
Qed.

(** X8. A whole press from rest, with a long-press threshold of at least
    one tick: the button is held for [k] ticks, at least max(d,1) so that
    it locks, then released for max(d,1) + 1 ticks.  If [k] is below the
    long-press tick F the only call is one short release and the active
    state ends as Short; otherwise the long-press handler is called
    k - F + 1 times, then the long-release handler once, and the active
    state ends as Long.  Either way the button ends unlocked with
    [lock_count] zero. *)
Theorem press_and_release_from_rest this key b read d t ws1 ws2 :
  ready this ->
  button_at this key = Some b ->
  (key < count this)%nat ->
  port_read this = Some read ->
  BTN_DEBOUNCE_TIME this = Some d ->
  BTN_LONG_PRESS_TIME this b = Some t ->
  0 <= d <= 255 ->
  1 <= t ->
  locked (state b) = false ->
  lock_count b = 0 ->
  long_count b = 0 ->
  Forall (fun w => raw_of read b w <> 0) ws1 ->
  Forall (fun w => raw_of read b w = 0) ws2 ->
  hold_lock_tick d <= Z.of_nat (length ws1) <= 65535 ->
  Z.of_nat (length ws2) = hold_lock_tick d + 1 ->
  exists this' tr b',
    run (ws1 ++ ws2) (this, []) = Some (this', tr) /\
    button_at this' key = Some b' /\
    locked (state b') = false /\
    lock_count b' = 0 /\
    (Z.of_nat (length ws1) < hold_long_tick d t (prew (state b)) ->
       act (state b') = BTN_STATE_SHORT /\
       calls_of key tr = invoke (short_release this) key) /\
    (hold_long_tick d t (prew (state b)) <= Z.of_nat (length ws1) ->
       act (state b') = BTN_STATE_LONG /\
       calls_of key tr =
         concat (repeat (invoke (long_press this) key)
                   (Z.to_nat (Z.of_nat (length ws1)
                              - hold_long_tick d t (prew (state b)) + 1)))
         ++ invoke (long_release this) key).
Proof.
  intros Hready Hb Hkey Hread Hd Ht Hdr Ht1 Hl Hc Hg Hws1 Hws2 Hlen1 Hlen2.
  destruct (run_button (ws1 ++ ws2) this [] key b read Hready Hb Hkey Hread)
    as (arr' & tr & r & Hrun & Hbrun & Hb' & Hcalls & _).
  rewrite button_run_app in Hbrun.
  rewrite <- (held_state_0 b d t Hl Hc Hg) in Hbrun at 1.
  rewrite (button_run_hold this key read b d t ws1 0 Hd Ht Hdr Hws1) in Hbrun by lia.
  cbn [mbind option_bind fst snd] in Hbrun.
  pose proof (hold_long_tick_pos d t (prew (state b))) as HF.
  rewrite Z.max_l in Hbrun by lia.
  set (k := Z.of_nat (length ws1)) in *.
  set (F := hold_long_tick d t (prew (state b))) in *.
  set (hk := held_state d t b (0 + k)) in *.
  assert (locked (state hk) = true) as Hlk by (cbn; apply Z.leb_le; lia).
  assert (lock_count hk = hold_lock_tick d) as Hck by (cbn; lia).
  assert (long_count hk = Z.max 0 (k - hold_count_tick d (prew (state b)) + 1)) as Hlong
    by (cbn; f_equal; lia).
  assert (act (state hk) = if F <=? k then BTN_STATE_LONG else act (state b)) as Hact
    by (cbn; by replace (0 + k) with k by lia).
  assert (Forall (fun w => raw_of read hk w = 0) ws2) as Hws2' by exact Hws2.
  assert (BTN_LONG_PRESS_TIME this hk = Some t) as Ht' by exact Ht.
  assert (F = hold_count_tick d (prew (state b)) + t - 1) as HFt
    by (unfold F, hold_long_tick; lia).
  clearbody hk.
  rewrite (button_run_release this key read ws2 hk t) in Hbrun;
    [|exact Hws2'|exact Hlk|rewrite Hck; unfold hold_lock_tick; lia
     |rewrite Hck; exact Hlen2|exact Ht'].
  cbn [mbind option_bind fst snd] in Hbrun.
  exists (set_instance this (Some arr')), tr, (fst r).
  split; [exact Hrun|]. split; [exact Hb'|]. rewrite Hcalls.
  destruct (Z.ltb_spec (long_count hk) t) as [Hlt|Hge];
    injection Hbrun as <-; cbn [fst snd set_act set_locked set_lock_count set_state
                                  state locked lock_count act].
  - split_and!; try reflexivity.
    + intros _. split; [reflexivity|].
      replace (Z.to_nat (0 + k - F + 1)) with 0%nat by lia. reflexivity.
    + intros Hle. lia.
  - assert (F <= k) as HFk by lia.
    split_and!; try reflexivity.
    + intros Hlt. lia.
    + intros _. rewrite Hact. destruct (Z.leb_spec F k); [|lia]. cbn.
      split; [reflexivity|]. by replace (0 + k - F + 1) with (k - F + 1) by lia.
Qed.

(** A tick on an unlocked button below the debounce tick count counts a
    pressed reading and nothing else. *)
Lemma Button_Update_body_counts this key raw b d :
  BTN_DEBOUNCE_TIME this = Some d ->
  d <= 255 ->
  locked (state b) = false ->
  0 <= lock_count b ->
  lock_count b + (if raw =? 0 then 0 else 1) < d ->
  exists b',
    Button_Update_body this key raw b = Some (b', []) /\
    locked (state b') = false /\
    lock_count b' = lock_count b + (if raw =? 0 then 0 else 1) /\
    act (state b') = act (state b) /\
    port b' = port b /\ pin b' = pin b.
Proof.
  intros Hd Hd255 Hl H0 Hlt. body_cases.
  destruct (raw =? 0) eqn:Hraw; cbn; rewrite Hl; cbn.
  - eexists. split; [reflexivity|]. cbn. repeat split; auto; lia.
  - rewrite Hd. cbn. rewrite (uint8_small (lock_count b + 1)) by lia.
    destruct (Z.geb_spec (lock_count b + 1) d) as [Hge|_]; [lia|].
    cbn. rewrite Hl. cbn.
    eexists. split; [reflexivity|]. cbn. repeat split; auto.
Qed.

(** The pressed tick that brings the counter to the debounce tick count
    locks the button. *)
Lemma Button_Update_body_locks this key raw b d :
  BTN_DEBOUNCE_TIME this = Some d ->
  1 <= d <= 255 ->
  locked (state b) = false ->
  lock_count b + 1 = d ->
  raw <> 0 ->
  exists r,
    Button_Update_body this key raw b = Some r /\
    locked (state (fst r)) = true /\ lock_count (fst r) = d.
Proof.
  intros Hd Hdr Hl Hc Hraw.
  destruct (c_div_defined _ _ _ Hd) as [Hp _].
  destruct (Button_Update_body_total this key raw b Hp) as [r Hr].
  exists r. split; [assumption|].
  body_inv Hr; cmp_to_prop; simplify_eq; cbn;
    rewrite ?uint8_small in * by lia; split; (congruence || lia).
Qed.

Lemma button_run_unlocked this key read d ws : forall b,
  BTN_DEBOUNCE_TIME this = Some d ->
  d <= 255 ->
  locked (state b) = false ->
  0 <= lock_count b ->
  lock_count b + Z.of_nat (presses read b ws) < d ->
  exists b',
    button_run this key read ws b = Some (b', []) /\
    locked (state b') = false /\
    lock_count b' = lock_count b + Z.of_nat (presses read b ws) /\
    act (state b') = act (state b) /\
    port b' = port b /\ pin b' = pin b.
Proof.
  induction ws as [|w ws IH]; intros b Hd Hd255 Hl H0 Hlt.
  - exists b. cbn. repeat split; auto. unfold presses. cbn. lia.
  - assert (presses read b (w :: ws) =
            Nat.add (if raw_of read b w =? 0 then 0%nat else 1%nat)
                    (presses read b ws)) as Hsplit.
    { unfold presses. cbn. unfold pressed_at at 1.
      destruct (raw_of read b w =? 0); reflexivity. }
    rewrite Hsplit in Hlt |- *.
    destruct (Button_Update_body_counts this key (raw_of read b w) b d Hd Hd255 Hl H0)
      as (b1 & Hbody & Hl1 & Hc1 & Hact1 & Hport1 & Hpin1).
    { destruct (raw_of read b w =? 0); lia. }
    pose proof (presses_frame read b b1 ws Hport1 Hpin1) as Hframe.
    destruct (IH b1 Hd Hd255 Hl1) as (b' & Hrun & Hl' & Hc' & Hact' & Hport' & Hpin').
    { destruct (raw_of read b w =? 0); lia. }
    { rewrite Hframe. destruct (raw_of read b w =? 0); lia. }
    exists b'. cbn [button_run]. rewrite Hbody. cbn [mbind option_bind fst snd].
    rewrite Hrun. cbn. split; [reflexivity|].
    rewrite Hframe in Hc'.
    split_and!; try congruence. destruct (raw_of read b w =? 0); lia.
Qed.

(** X9. The debounce counter is not cleared by released readings: an
    unlocked button with [lock_count] zero stays unlocked, without a
    call, while the pressed ticks seen so far, however many released ticks
    lie between them, are fewer than the debounce tick count [d], and it
    locks on the pressed tick that brings their number to [d]. *)
Theorem lock_counts_presses_across_releases this key b read d ws w :
  ready this ->
  button_at this key = Some b ->
  (key < count this)%nat ->
  port_read this = Some read ->
  BTN_DEBOUNCE_TIME this = Some d ->
  1 <= d <= 255 ->
  locked (state b) = false ->
  lock_count b = 0 ->
  Z.of_nat (presses read b ws) = d - 1 ->
  raw_of read b w <> 0 ->
  (exists this' tr b',
     run ws (this, []) = Some (this', tr) /\
     button_at this' key = Some b' /\
     locked (state b') = false /\ lock_count b' = d - 1 /\
     calls_of key tr = []) /\
  (exists this' tr b',
     run (ws ++ [w]) (this, []) = Some (this', tr) /\
     button_at this' key = Some b' /\
     locked (state b') = true /\ lock_count b' = d).
Proof.
  intros Hready Hb Hkey Hread Hd Hdr Hl Hc Hn Hw.
  destruct (button_run_unlocked this key read d ws b Hd) as
    (b1 & Hrun1 & Hl1 & Hc1 & _ & Hport1 & Hpin1); try lia; try assumption.
  split.
  - destruct (run_button ws this [] key b read Hready Hb Hkey Hread)
      as (arr' & tr & r & Hrun & Hbrun & Hb' & Hcalls & _).
    rewrite Hrun1 in Hbrun. injection Hbrun as <-.
    exists (set_instance this (Some arr')), tr, b1. split_and!; try assumption. lia.
  - destruct (run_button (ws ++ [w]) this [] key b read Hready Hb Hkey Hread)
      as (arr' & tr & r & Hrun & Hbrun & Hb' & Hcalls & _).
    rewrite button_run_app, Hrun1 in Hbrun. cbn in Hbrun.
    destruct (Button_Update_body_locks this key (raw_of read b1 w) b1 d Hd Hdr Hl1)
      as (r1 & Hbody & Hl' & Hc'); [lia| |].
    { unfold raw_of in *. by rewrite Hport1, Hpin1. }
    rewrite Hbody in Hbrun. cbn in Hbrun. injection Hbrun as <-.
    exists (set_instance this (Some arr')), tr, (fst r1). split_and!; assumption.
Qed.

(** The loop body keeps the counters within their bounds. *)
Lemma Button_Update_body_bounds this key raw b r d :
  BTN_DEBOUNCE_TIME this = Some d ->
  0 <= d <= 255 ->
  counters_in_bounds d b ->
  Button_Update_body this key raw b = Some r ->
  counters_in_bounds d (fst r).
Proof.
  unfold counters_in_bounds. intros Hd Hdr (Hlc & Hun & Hlg) H.
  pose proof (uint8_range (lock_count b + 1)).
  pose proof (uint16_range (long_count b + 1)).
  body_inv H; cmp_to_prop; simplify_eq; cbn in *;
    rewrite ?(uint8_small (lock_count b + 1)) in * by lia;
    split_and!; intros; try discriminate; try lia;
    try congruence; try (specialize (Hun eq_refl); lia).
Qed.

(** X10. After a successful [Button_Init] with period and debounce time
    in their [uint8_t] range, and any number of ticks, every configured
    button has its counters within bounds: [lock_count] is between 0 and
    max(d,1), strictly below max(d,1) while the button is unlocked, and
    [long_count] is between 0 and 65535, for the debounce tick count [d]
    of the engine. *)
Theorem counters_stay_in_bounds (prev : option (btn_init_t hw))
    (cfg e0 e : btn_init_t hw) arr (cnt : nat) ws tr key :
  Button_Init prev (Some cfg) (Some arr) cnt = Some (0, Some e0) ->
  0 <= process_time_ms cfg ->
  0 <= debounce_time_ms cfg <= 255 ->
  run ws (e0, []) = Some (e, tr) ->
  (key < cnt)%nat ->
  exists b d,
    button_at e key = Some b /\
    BTN_DEBOUNCE_TIME e = Some d /\
    0 <= d <= 255 /\
    counters_in_bounds d b.
Proof.
  intros Hinit Hp Hdeb Hrun Hkey.
  pose proof (Button_Init_ready _ _ _ _ _ Hinit) as ((arr0 & Harr0 & Hlen0) & _ & Hp0).
  apply Button_Init_buttons in Hinit
    as (Hpe & Hde & _ & Hcnt & _ & _ & _ & _ & Hbtn).
  destruct (Hbtn key Hkey) as (b0 & _ & Hb0).
  unfold button_at in Hb0. rewrite Harr0 in Hb0. cbn in Hb0.
  set (d := Z.quot (debounce_time_ms e0) (process_time_ms e0)).
  assert (BTN_DEBOUNCE_TIME e0 = Some d) as Hd.
  { unfold BTN_DEBOUNCE_TIME. by apply c_div_total. }
  assert (0 <= d <= 255) as Hdr.
  { unfold d. rewrite Hpe, Hde in *.
    assert (0 < (if process_time_ms cfg =? 0 then 10 else process_time_ms cfg)) as Hpos
      by (destruct (Z.eqb_spec (process_time_ms cfg) 0); lia).
    assert (0 <= (if debounce_time_ms cfg =? 0 then 20 else debounce_time_ms cfg) <= 255)
      as Hrange by (destruct (Z.eqb_spec (debounce_time_ms cfg) 0); lia).
    rewrite Z.quot_div_nonneg by lia. split.
    - apply Z.div_pos; lia.
    - apply Z.div_le_upper_bound; nia. }
  rewrite <- (set_instance_same e0 (Some arr0) Harr0) in Hrun.
  destruct (run_button_invariant (counters_in_bounds d) e0 key
              (fun raw b r => Button_Update_body_bounds e0 key raw b r d Hd Hdr)
              ws arr0 [] _ (e, tr) Hrun Hb0)
    as (arr' & b' & He & _ & Hb' & HP').
  { unfold counters_in_bounds. cbn. split_and!; intros; lia. }
  cbn in He. subst e. exists b', d. split_and!; try assumption; try apply Hdr.
Qed.

End Timing.

(** ** Initialisation, further *)

Section InitFurther.

Context {hw : Type}.

Implicit Types (cfg e : btn_init_t hw) (b : btn_instance_t)
  (arr : list btn_instance_t).

Lemma Button_Init_instance_idem def b :
  def <> 0 ->
  Button_Init_instance def (Button_Init_instance def b) = Button_Init_instance def b.
Proof.
  intros Hdef. unfold Button_Init_instance. cbn. f_equal.
  destruct (Z.eqb_spec (long_press_time_ms b) 0) as [_|Hne].
  - destruct (Z.eqb_spec def 0); [contradiction|reflexivity].
  - destruct (Z.eqb_spec (long_press_time_ms b) 0); [contradiction|reflexivity].
Qed.

(** The array after the initialisation loop, element by element. *)
Lemma Button_Init_loop_lookup cnt def arr arr' i :
  Button_Init_loop cnt 0 def arr = Some arr' ->
  arr' !! i =
    (if (i <? cnt)%nat then Button_Init_instance def <$> arr !! i else arr !! i).
Proof.
  intros Hloop. apply Button_Init_loop_inv in Hloop as (Hlen & _ & Hin & Hout).
  destruct (arr !! i) as [b|] eqn:Hb.
  - destruct (Nat.ltb_spec i cnt); cbn.
    + apply Hin; [assumption|lia].
    + apply Hout; [assumption|lia].
  - assert (arr' !! i = None) as ->.
    { apply lookup_ge_None. apply lookup_ge_None in Hb. lia. }
    by destruct (i <? cnt)%nat.
Qed.

(** X11. [Button_Init] touches only the runtime fields of the first
    [count] buttons: the array keeps its length, every element keeps its
    port, its pin and its active state, a nonzero long-press time is kept,
    and an element at or beyond the count is left exactly as it was. *)
Theorem Button_Init_frame (prev : option (btn_init_t hw)) cfg arr (cnt : nat) e :
  Button_Init prev (Some cfg) (Some arr) cnt = Some (0, Some e) ->
  exists arr',
    instance e = Some arr' /\ length arr' = length arr /\
    forall i b, arr !! i = Some b ->
      exists b', arr' !! i = Some b' /\
        port b' = port b /\ pin b' = pin b /\
        act (state b') = act (state b) /\
        (long_press_time_ms b <> 0 -> long_press_time_ms b' = long_press_time_ms b) /\
        ((cnt <= i)%nat -> b' = b).
Proof.
  intros H. apply Button_Init_inv in H
    as [(Hret & _)
       |(_ & cfg' & arr0 & arr' & [= <-] & [= <-] & Hcnt & Hread & Hloop & [= ->])];
    [discriminate|].
  cbn in Hloop. exists arr'. split; [reflexivity|].
  pose proof (Button_Init_loop_inv _ _ _ _ _ Hloop) as (Hlen & _).
  split; [assumption|]. intros i b Hb.
  rewrite (Button_Init_loop_lookup _ _ _ _ i Hloop), Hb.
  destruct (Nat.ltb_spec i cnt); cbn.
  - eexists. split; [reflexivity|]. cbn. split_and!; try reflexivity.
    + intros Hne. destruct (Z.eqb_spec (long_press_time_ms b) 0); [contradiction|reflexivity].
    + lia.
  - exists b. split_and!; auto.
Qed.

(** X12. Initialising again with the structure and the array that a
    successful [Button_Init] left behind, and the same count, succeeds and
    changes nothing: the defaults it filled in are kept because they are
    no longer zero. *)
Theorem Button_Init_again_is_identity (prev prev' : option (btn_init_t hw))
    cfg arr (cnt : nat) e :
  Button_Init prev (Some cfg) (Some arr) cnt = Some (0, Some e) ->
  Button_Init prev' (Some e) (instance e) cnt = Some (0, Some e).
Proof.
  intros H. apply Button_Init_inv in H
    as [(Hret & _)
       |(_ & cfg' & arr0 & arr' & [= <-] & [= <-] & Hcnt & [read Hread] & Hloop & [= ->])];
    [discriminate|].
  cbn in Hloop. unfold Button_Init.
  cbn [instance port_read process_time_ms debounce_time_ms long_press_def_ms
       short_release long_release long_press].
  rewrite Hread. destruct (Nat.eqb_spec cnt 0); [contradiction|].
  set (p := if process_time_ms cfg =? 0 then BTN_PROCESS_DEF else process_time_ms cfg).
  set (d := if debounce_time_ms cfg =? 0 then BTN_DEBOUNCE_DEF else debounce_time_ms cfg).
  set (l := if long_press_def_ms cfg =? 0 then BTN_LONG_PRESS_DEF else long_press_def_ms cfg)
    in *.
  change (if long_press_def_ms cfg =? 0 then 1000 else long_press_def_ms cfg) with l in *.
  change (if process_time_ms cfg =? 0 then 10 else process_time_ms cfg) with p.
  change (if debounce_time_ms cfg =? 0 then 20 else debounce_time_ms cfg) with d.
  assert (p <> 0) as Hp by (unfold p, BTN_PROCESS_DEF; destruct (Z.eqb_spec (process_time_ms cfg) 0); lia).
  assert (d <> 0) as Hd by (unfold d, BTN_DEBOUNCE_DEF; destruct (Z.eqb_spec (debounce_time_ms cfg) 0); lia).
  assert (l <> 0) as Hl by (unfold l, BTN_LONG_PRESS_DEF; destruct (Z.eqb_spec (long_press_def_ms cfg) 0); lia).
  destruct (Z.eqb_spec p 0); [contradiction|].
  destruct (Z.eqb_spec d 0); [contradiction|].
  destruct (Z.eqb_spec l 0); [contradiction|].
  pose proof (Button_Init_loop_inv _ _ _ _ _ Hloop) as (Hlen & Hbound & _).
  destruct (Button_Init_loop_total cnt 0 l arr') as [arr'' Hloop']; [lia|].
  rewrite Hloop'. cbn.
  assert (arr'' = arr') as ->; [|reflexivity].
  apply list_eq. intros i.
  rewrite (Button_Init_loop_lookup _ _ _ _ i Hloop'),
    (Button_Init_loop_lookup _ _ _ _ i Hloop).
  destruct (i <? cnt)%nat; [|reflexivity].
  destruct (arr !! i) as [b|]; cbn; [|reflexivity].
  by rewrite Button_Init_instance_idem.
Qed.

(** X13. The default long-press time is applied once: a button that a
    successful [Button_Init] has been through keeps its long-press time in
    every later successful [Button_Init] on the same array, whatever
    default the later configuration carries. *)
Theorem long_press_default_applied_once (prev prev' : option (btn_init_t hw))
    cfg cfg' arr arr' (cnt cnt' : nat) e e' i b :
  Button_Init prev (Some cfg) (Some arr) cnt = Some (0, Some e) ->
  instance e = Some arr' ->
  Button_Init prev' (Some cfg') (Some arr') cnt' = Some (0, Some e') ->
  (i < cnt)%nat ->
  button_at e i = Some b ->
  exists b',
    button_at e' i = Some b' /\
    long_press_time_ms b' = long_press_time_ms b /\
    long_press_time_ms b' <> 0.
Proof.
  intros H1 Harr' H2 Hi Hb.
  apply Button_Init_inv in H1
    as [(Hret & _)
       |(_ & c1 & a1 & a1' & [= <-] & [= <-] & Hcnt & _ & Hloop1 & [= ->])];
    [discriminate|].
  apply Button_Init_inv in H2
    as [(Hret & _)
       |(_ & c2 & a2 & a2' & [= <-] & [= <-] & Hcnt' & _ & Hloop2 & [= ->])];
    [discriminate|].
  cbn in *. injection Harr' as <-.
  rewrite (Button_Init_loop_lookup _ _ _ _ i Hloop1) in Hb.
  destruct (Nat.ltb_spec i cnt); [|lia].
  destruct (arr !! i) as [b0|] eqn:Hb0; cbn in Hb; [|discriminate].
  injection Hb as <-.
  assert (long_press_time_ms
            (Button_Init_instance
               (if long_press_def_ms cfg =? 0 then 1000 else long_press_def_ms cfg) b0) <> 0)
    as Hne.
  { cbn. destruct (Z.eqb_spec (long_press_time_ms b0) 0); [|assumption].
    destruct (Z.eqb_spec (long_press_def_ms cfg) 0); lia. }
  rewrite (Button_Init_loop_lookup _ _ _ _ i Hloop2),
    (Button_Init_loop_lookup _ _ _ _ i Hloop1), Hb0.
  destruct (Nat.ltb_spec i cnt); [|lia]. cbn [fmap option_fmap option_map].
  destruct (i <? cnt')%nat; cbn [fmap option_fmap option_map].
  - eexists. split; [reflexivity|]. cbn [Button_Init_instance long_press_time_ms] in *.
    destruct (Z.eqb_spec (if long_press_time_ms b0 =? 0
                          then if long_press_def_ms cfg =? 0 then 1000
                               else long_press_def_ms cfg
                          else long_press_time_ms b0) 0); [contradiction|].
    split; [reflexivity|assumption].
  - eexists. split; [reflexivity|]. split; [reflexivity|assumption].
Qed.

End InitFurther.

(** ** The v1.0 library as a whole (the earlier button.c) *)

Module V1_api.

Section Statics.

Variable hw : Type.

(** The read callback: port and pin to a [bool], reading the hardware state. *)
Definition portReadCallback_t : Type := hw -> Z -> Z -> bool.

(** The three static variables of the file. *)
Record statics : Type := mk_statics {
  btnAmount : nat;
  btnInstance : option (list V1.btnInstance_t);
  btnPortRead : option portReadCallback_t
}.

(** The body of the initialisation loop; [state] is not assigned. *)
Definition Button_Init_instance (b : V1.btnInstance_t) : V1.btnInstance_t :=
  V1.mk_btn (V1.state b) BTN_STATE_NONE false 0 0 (V1.port b) (V1.pin b).

Fixpoint Button_Init_loop (todo keyNumber : nat) (arr : list V1.btnInstance_t)
  : option (list V1.btnInstance_t) :=
  match todo with
  | O => Some arr
  | S todo' =>
      b ← arr !! keyNumber;
      Button_Init_loop todo' (S keyNumber) (<[keyNumber := Button_Init_instance b]> arr)
  end.

(** No argument is checked; the loop dereferences the array pointer for
    every index below [amount]. *)
Definition Button_Init (btnInstanceArray : option (list V1.btnInstance_t))
    (callback : option portReadCallback_t) (amount : nat) : option statics :=
  match btnInstanceArray with
  | Some arr =>
      arr' ← Button_Init_loop amount 0 arr;
      Some (mk_statics amount (Some arr') callback)
  | None =>
      if (amount =? 0)%nat then Some (mk_statics amount None callback) else None
  end.

(** The body of the [while] loop for one button. *)
Definition Button_Update_body (key : nat) (read : bool) (b : V1.btnInstance_t)
  : V1.btnInstance_t * list V1.call :=
  let btnNowPressed := if read then BTN_STATE_SHORT else BTN_STATE_NONE in
  match btnNowPressed with
  | BTN_STATE_SHORT => V1.Button_Update_pressed key b
  | BTN_STATE_NONE => V1.Button_Update_released key b
  | BTN_STATE_LONG => (b, [])
  end.

Definition Button_Update_key (w : hw) (keyNumber : nat)
    (s : list V1.btnInstance_t * list V1.call) (read : portReadCallback_t)
  : option (list V1.btnInstance_t * list V1.call) :=
  b ← fst s !! keyNumber;
  let r := Button_Update_body keyNumber (read w (V1.port b) (V1.pin b)) b in
  Some (<[keyNumber := fst r]> (fst s), snd s ++ snd r).

Fixpoint Button_Update_loop (todo keyNumber : nat) (w : hw) (read : portReadCallback_t)
    (s : list V1.btnInstance_t * list V1.call)
  : option (list V1.btnInstance_t * list V1.call) :=
  match todo with
  | O => Some s
  | S todo' =>
      s' ← Button_Update_key w keyNumber s read;
      Button_Update_loop todo' (S keyNumber) w read s'
  end.

(** One tick; with no button configured neither pointer is used. *)
Definition Button_Update (w : hw) (s : statics) : option (statics * list V1.call) :=
  match btnAmount s with
  | O => Some (s, [])
  | _ =>
      arr ← btnInstance s;
      read ← btnPortRead s;
      r ← Button_Update_loop (btnAmount s) 0 w read (arr, []);
      Some (mk_statics (btnAmount s) (Some (fst r)) (btnPortRead s), snd r)
  end.

(** [return btnInstance[btnCode].state;], with no test of the code. *)
Definition Button_EventGet (s : statics) (btnCode : nat) : option btn_state_t :=
  arr ← btnInstance s;
  b ← arr !! btnCode;
  Some (V1.state b).

End Statics.

End V1_api.

Arguments V1_api.mk_statics {hw} _ _ _.
Arguments V1_api.btnAmount {hw} _.
Arguments V1_api.btnInstance {hw} _.
Arguments V1_api.btnPortRead {hw} _.
Arguments V1_api.Button_Init {hw} _ _ _.
Arguments V1_api.Button_Update_key {hw} _ _ _ _.
Arguments V1_api.Button_Update_loop {hw} _ _ _ _ _.
Arguments V1_api.Button_Update {hw} _ _.
Arguments V1_api.Button_EventGet {hw} _ _.

(** ** The two versions side by side *)

(** A v1.0 instance as a v2.0 instance with the v1.0 long-press time. *)
Definition to_v2 (b : V1.btnInstance_t) : btn_instance_t :=
  mk_instance (mk_state (V1.state b) (V1.prewState b) (V1.locked b))
              (V1.lockCount b) (V1.longCount b) V1.BTN_LONG_PRESS_TIME_MS
              (V1.port b) (V1.pin b).

(** A call of a v1.0 weak function as the call of the v2.0 handler that
    replaced it. *)
Definition v2_calls {hw} (this : btn_init_t hw) (c : V1.call) : list call :=
  match c with
  | V1.Button_ShortRelease k => invoke (short_release this) k
  | V1.Button_LongPress k => invoke (long_press this) k
  | V1.Button_LongRelease k => invoke (long_release this) k
  end.

(** The ticks on which v2.0 calls the long-press handler and v1.0 does
    not call [Button_LongPress]: pressed, locked, read pressed before, and
    the counter already above the threshold. *)
Definition long_press_again (read : bool) (b b' : V1.btnInstance_t) : bool :=
  read && V1.locked b' && btn_state_eqb BTN_STATE_SHORT (V1.prewState b)
  && (V1.BTN_LONG_PRESS_TIME <? V1.longCount b').

(** The v1.0 read callback as a v2.0 one. *)
Definition read_v2 {hw} (f : V1_api.portReadCallback_t hw) : port_read_cb_t hw :=
  fun w po pi => if f w po pi then 1 else 0.

(** The v2.0 engine that corresponds to the v1.0 statics: the same
    buttons, the v1.0 timing, and handlers of the caller's choice. *)
Definition engine_v2 {hw} (s : V1_api.statics hw)
    (sr lr lp : option btn_ev_cb_t) : btn_init_t hw :=
  mk_init (map to_v2 <$> V1_api.btnInstance s) (V1_api.btnAmount s)
          V1.BTN_PROCESSING_TIME_MS V1.BTN_DEBOUNCE_TIME_MS V1.BTN_LONG_PRESS_TIME_MS
          (read_v2 <$> V1_api.btnPortRead s) sr lr lp.

(** A v1.0 bench: one pin whose level is the hardware state. *)
Definition v1_level_read : V1_api.portReadCallback_t bool := fun w _ _ => w.

Definition v1_bench_btn (st : btn_state_t) (lk : bool) (lc lg : Z) : V1.btnInstance_t :=
  V1.mk_btn st BTN_STATE_SHORT lk lc lg 0 0.

Section Versions.

Context {hw : Type}.

Implicit Types (this : btn_init_t hw) (key : nat).

(** X14. With the v1.0 timing (period 10 ms, debounce 20 ms, long press
    1000 ms) the v2.0 loop body makes the same transition as the v1.0 loop
    body on every instance and reading, and makes the same calls, with one
    exception: on a pressed tick of a locked button with the counter
    already above the threshold v1.0 calls nothing and v2.0 calls the
    long-press handler. *)
Theorem v2_body_agrees_with_v1 this key (read : bool) (b : V1.btnInstance_t) :
  process_time_ms this = V1.BTN_PROCESSING_TIME_MS ->
  debounce_time_ms this = V1.BTN_DEBOUNCE_TIME_MS ->
  let r1 := V1_api.Button_Update_body key read b in
  Button_Update_body this key (if read then 1 else 0) (to_v2 b) =
    Some (to_v2 (fst r1),
          if long_press_again read b (fst r1) then invoke (long_press this) key
          else concat (map (v2_calls this) (snd r1))) /\
  (long_press_again read b (fst r1) = true -> snd r1 = []).
Proof.
  intros Hp Hd r1. subst r1.
  unfold V1_api.Button_Update_body, long_press_again, Button_Update_body,
    Button_Update_pressed, Button_Update_released, BTN_DEBOUNCE_TIME,
    BTN_LONG_PRESS_TIME, V1.Button_Update_pressed, V1.Button_Update_released, to_v2.
  rewrite Hp, Hd.
  change V1.BTN_LONG_PRESS_TIME with 100.
  change V1.BTN_DEBOUNCE_TIME with 2.
  change (c_div V1.BTN_DEBOUNCE_TIME_MS V1.BTN_PROCESSING_TIME_MS) with (Some 2).
  change (c_div V1.BTN_LONG_PRESS_TIME_MS V1.BTN_PROCESSING_TIME_MS) with (Some 100).
  destruct b as [st pw lk lc lg po pi], read; cbn.
  all: split_tests.
  all: unfold set_prew, set_act, set_locked, set_long_count, set_lock_count, set_state in *;
    cbn [state lock_count long_count long_press_time_ms port pin act prew locked andb]
      in *;
    cmp_to_prop;
    change (Z.quot V1.BTN_LONG_PRESS_TIME_MS V1.BTN_PROCESSING_TIME_MS) with 100 in *;
    change (Z.quot V1.BTN_DEBOUNCE_TIME_MS V1.BTN_PROCESSING_TIME_MS) with 2 in *;
    try (exfalso; first [ congruence | lia ]).
  all: unfold set_prew, set_act, set_locked, set_long_count, set_lock_count, set_state;
    cbn; rewrite ?app_nil_r;
    (split; [reflexivity|intros; first [ reflexivity | discriminate ]]).
Qed.

(** The state part of the agreement, for any timing-compatible engine. *)
Lemma Button_Update_body_to_v2 this key (read : bool) (b : V1.btnInstance_t) :
  process_time_ms this = V1.BTN_PROCESSING_TIME_MS ->
  debounce_time_ms this = V1.BTN_DEBOUNCE_TIME_MS ->
  exists tr,
    Button_Update_body this key (if read then 1 else 0) (to_v2 b) =
      Some (to_v2 (fst (V1_api.Button_Update_body key read b)), tr).
Proof.
  intros Hp Hd.
  unfold V1_api.Button_Update_body, Button_Update_body,
    Button_Update_pressed, Button_Update_released, BTN_DEBOUNCE_TIME,
    BTN_LONG_PRESS_TIME, V1.Button_Update_pressed, V1.Button_Update_released, to_v2.
  rewrite Hp, Hd.
  change V1.BTN_LONG_PRESS_TIME with 100.
  change V1.BTN_DEBOUNCE_TIME with 2.
  change (c_div V1.BTN_DEBOUNCE_TIME_MS V1.BTN_PROCESSING_TIME_MS) with (Some 2).
  change (c_div V1.BTN_LONG_PRESS_TIME_MS V1.BTN_PROCESSING_TIME_MS) with (Some 100).
  destruct b as [st pw lk lc lg po pi], read; cbn.
  all: split_tests.
  all: unfold set_prew, set_act, set_locked, set_long_count, set_lock_count, set_state in *;
    cbn [state lock_count long_count long_press_time_ms port pin act prew locked andb]
      in *;
    cmp_to_prop;
    change (Z.quot V1.BTN_LONG_PRESS_TIME_MS V1.BTN_PROCESSING_TIME_MS) with 100 in *;
    change (Z.quot V1.BTN_DEBOUNCE_TIME_MS V1.BTN_PROCESSING_TIME_MS) with 2 in *;
    try (exfalso; first [ congruence | lia ]).
  all: eexists; reflexivity.
Qed.

(** What the v1.0 loop from [key] over [todo] buttons does to the array. *)
Lemma V1_Button_Update_loop_inv todo : forall key (w : hw) read arr tr s',
  V1_api.Button_Update_loop todo key w read (arr, tr) = Some s' ->
  length (fst s') = length arr /\
  (todo <> 0%nat -> (key + todo <= length arr)%nat) /\
  forall i b, arr !! i = Some b ->
    fst s' !! i =
      Some (if ((key <=? i) && (i <? key + todo))%nat
            then fst (V1_api.Button_Update_body i (read w (V1.port b) (V1.pin b)) b)
            else b).
Proof.
  induction todo as [|todo IH]; intros key w read arr tr s' Hloop.
  - injection Hloop as <-. cbn [fst]. split_and!; [done|done|].
    intros i b Hb. rewrite Hb.
    destruct (Nat.leb_spec key i), (Nat.ltb_spec i (key + 0));
      cbn [andb]; try reflexivity; lia.
  - cbn [V1_api.Button_Update_loop] in Hloop.
    unfold V1_api.Button_Update_key in Hloop at 1. cbn [fst snd] in Hloop.
    destruct (arr !! key) as [bk|] eqn:Hbk; cbn in Hloop; [|discriminate].
    pose proof (lookup_lt_Some _ _ _ Hbk) as Hlt.
    apply IH in Hloop as (Hlen & Hbound & Hlook).
    rewrite length_insert in Hlen, Hbound.
    split; [assumption|]. split; [destruct todo; lia|].
    intros i b Hb. destruct (decide (i = key)) as [->|Hne].
    + assert (b = bk) as -> by congruence.
      rewrite (Hlook key _ (list_lookup_insert_eq _ _ _ Hlt)).
      destruct (Nat.leb_spec (S key) key), (Nat.leb_spec key key),
        (Nat.ltb_spec key (S key + todo)), (Nat.ltb_spec key (key + S todo));
        cbn [andb]; try reflexivity; lia.
    + rewrite (Hlook i b) by (rewrite list_lookup_insert_ne; [assumption|congruence]).
      f_equal.
      destruct (Nat.leb_spec (S key) i), (Nat.leb_spec key i),
        (Nat.ltb_spec i (S key + todo)), (Nat.ltb_spec i (key + S todo));
        cbn [andb]; try reflexivity; lia.
Qed.

Lemma V1_Button_Update_loop_total todo : forall key (w : hw) read arr tr,
  (key + todo <= length arr)%nat ->
  is_Some (V1_api.Button_Update_loop todo key w read (arr, tr)).
Proof.
  induction todo as [|todo IH]; intros key w read arr tr Hlen; cbn [V1_api.Button_Update_loop].
  - eauto.
  - unfold V1_api.Button_Update_key at 1. cbn [fst snd].
    destruct (lookup_lt_is_Some_2 arr key) as [b Hb]; [lia|].
    rewrite Hb. cbn. apply IH. rewrite length_insert. lia.
Qed.

(** X15. The v1.0 tick and the v2.0 tick move the buttons alike: when
    the v1.0 [Button_Update] is defined on the statics, the v2.0
    [Button_Update] on the corresponding engine (same buttons, v1.0
    timing, any handlers) is defined too and ends in the engine that
    corresponds to the v1.0 result. *)
Theorem v2_tick_follows_v1_tick (w : hw) (s s' : V1_api.statics hw)
    (tr1 : list V1.call) (sr lr lp : option btn_ev_cb_t) :
  V1_api.Button_Update w s = Some (s', tr1) ->
  exists tr2,
    Button_Update w (engine_v2 s sr lr lp) = Some (engine_v2 s' sr lr lp, tr2).
Proof.
  unfold V1_api.Button_Update. intros H1.
  destruct (V1_api.btnAmount s) as [|n] eqn:Hn.
  { injection H1 as <- <-. exists []. unfold Button_Update. cbn. by rewrite Hn. }
  destruct s as [amount [arr|] [read|]];
    cbn [mbind option_bind V1_api.btnInstance V1_api.btnPortRead V1_api.btnAmount] in *;
    try discriminate.
  subst amount.
  destruct (V1_api.Button_Update_loop (S n) 0 w read (arr, [])) as [r|] eqn:Hloop;
    cbn in H1; [|discriminate].
  injection H1 as <- <-.
  apply V1_Button_Update_loop_inv in Hloop as (Hlen & Hbound & Hlook).
  specialize (Hbound (Nat.neq_succ_0 n)).
  set (this := engine_v2 (V1_api.mk_statics (S n) (Some arr) (Some read)) sr lr lp).
  assert (ready this) as Hready.
  { split; [|split; [by eexists|discriminate]].
    eexists. split; [reflexivity|]. rewrite length_map. cbn. lia. }
  destruct (Button_Update_total w this Hready) as (arr2 & tr2 & Hupd & _).
  exists tr2. rewrite Hupd. do 2 f_equal.
  unfold engine_v2, this, set_instance. cbn. f_equal. f_equal.
  destruct (Button_Update_inv w this (map to_v2 arr) _ tr2 eq_refl Hupd)
    as (arr2' & Heq & Hlen2 & Hin & Hout).
  assert (arr2' = arr2) as ->.
  { apply (f_equal instance) in Heq. cbn in Heq. congruence. }
  apply list_eq. intros i. rewrite list_lookup_fmap.
  destruct (arr !! i) as [b|] eqn:Hb.
  - pose proof (Hlook i b Hb) as Hr.
    assert (map to_v2 arr !! i = Some (to_v2 b)) as Hb2
      by (by rewrite list_lookup_fmap, Hb).
    destruct (Nat.lt_ge_cases i (S n)) as [Hi|Hi].
    + replace ((0 <=? i)%nat && (i <? 0 + S n)%nat) with true in Hr
        by (symmetry; apply andb_true_iff; split;
            [apply Nat.leb_le; lia|apply Nat.ltb_lt; lia]).
      rewrite Hr. cbn [fmap option_fmap option_map].
      destruct (Hin i (to_v2 b) Hb2 Hi) as (read' & r2 & Hread' & Hbody & Hi2 & _).
      cbn in Hread'. injection Hread' as <-.
      destruct (Button_Update_body_to_v2 this i (read w (V1.port b) (V1.pin b)) b)
        as [tr Hstep]; [reflexivity|reflexivity|].
      unfold raw_of, read_v2 in Hbody. cbn in Hbody. rewrite Hstep in Hbody.
      injection Hbody as <-. exact Hi2.
    + replace ((0 <=? i)%nat && (i <? 0 + S n)%nat) with false in Hr
        by (symmetry; apply andb_false_iff; right; apply Nat.ltb_ge; lia).
      rewrite Hr. exact (proj1 (Hout i (to_v2 b) Hb2 Hi)).
  - apply lookup_ge_None in Hb.
    rewrite (proj2 (lookup_ge_None arr2 i)) by (rewrite Hlen2, length_map; lia).
    rewrite (proj2 (lookup_ge_None (fst r) i)) by lia. reflexivity.
Qed.

(** X16. The v1.0 [Button_Init] checks nothing: for any array that
    holds [amount] buttons it binds the statics, whatever the callback,
    resetting [locked], the two counters and the previous raw state of the
    first [amount] buttons and leaving [state] and every other element as
    they are; with at least one button a tick afterwards is defined
    exactly when the callback is not null. *)
Theorem V1_Button_Init_checks_nothing
    (arr : list V1.btnInstance_t) (callback : option (V1_api.portReadCallback_t hw))
    (amount : nat) :
  (amount <= length arr)%nat ->
  exists arr',
    V1_api.Button_Init (Some arr) callback amount =
      Some (V1_api.mk_statics amount (Some arr') callback) /\
    length arr' = length arr /\
    (forall i b, arr !! i = Some b ->
       arr' !! i =
         Some (if (i <? amount)%nat then V1_api.Button_Init_instance b else b)) /\
    ((0 < amount)%nat ->
     forall w,
       is_Some (V1_api.Button_Update w (V1_api.mk_statics amount (Some arr') callback))
       <-> is_Some callback).
Proof.
  intros Hlen. unfold V1_api.Button_Init.
  assert (forall todo key a,
            (key + todo <= length a)%nat ->
            exists a', V1_api.Button_Init_loop todo key a = Some a' /\
              length a' = length a /\
              forall i b, a !! i = Some b ->
                a' !! i =
                  Some (if ((key <=? i) && (i <? key + todo))%nat
                        then V1_api.Button_Init_instance b else b)) as Hloop.
  { induction todo as [|todo IH]; intros key a Ha; cbn [V1_api.Button_Init_loop].
    - exists a. split_and!; try done. intros i b ->.
      destruct (Nat.leb_spec key i), (Nat.ltb_spec i (key + 0));
        cbn [andb]; try reflexivity; lia.
    - destruct (lookup_lt_is_Some_2 a key) as [bk Hbk]; [lia|]. rewrite Hbk.
      cbn [mbind option_bind].
      destruct (IH (S key) (<[key := V1_api.Button_Init_instance bk]> a))
        as (a' & -> & Hl & Hlook); [rewrite length_insert; lia|].
      rewrite length_insert in Hl. exists a'. split_and!; try done.
      intros i b Hb. destruct (decide (i = key)) as [->|Hne].
      + assert (b = bk) as -> by congruence.
        rewrite (Hlook key _ (list_lookup_insert_eq _ _ _ (lookup_lt_Some _ _ _ Hbk))).
        destruct (Nat.leb_spec (S key) key), (Nat.leb_spec key key),
          (Nat.ltb_spec key (S key + todo)), (Nat.ltb_spec key (key + S todo));
          cbn [andb]; try reflexivity; lia.
      + rewrite (Hlook i b) by (rewrite list_lookup_insert_ne; [assumption|congruence]).
        f_equal.
        destruct (Nat.leb_spec (S key) i), (Nat.leb_spec key i),
          (Nat.ltb_spec i (S key + todo)), (Nat.ltb_spec i (key + S todo));
          cbn [andb]; try reflexivity; lia. }
  destruct (Hloop amount 0%nat arr) as (arr' & -> & Hl & Hlook); [lia|].
  exists arr'. cbn [mbind option_bind].
  split; [reflexivity|]. split; [exact Hl|]. split.
  - intros i b Hb. rewrite (Hlook i b Hb). reflexivity.
  - intros Hpos w. unfold V1_api.Button_Update.
    cbn [V1_api.btnAmount V1_api.btnInstance V1_api.btnPortRead mbind option_bind].
    destruct amount as [|n]; [lia|].
    destruct callback as [read|]; cbn [mbind option_bind].
    + destruct (V1_Button_Update_loop_total (S n) 0 w read arr' []) as [r ->]; [lia|].
      cbn. split; eauto.
    + split; intros [? ?]; discriminate.
Qed.

End Versions.

(** ** Concrete instances of the further properties *)

(** A second configuration for the array of [test_init_defaults], with
    another default long-press time, and the engine it gives. *)
Definition test_defaults_init_500 : btn_init_t Z :=
  mk_init None 0%nat 0 0 500 (Some test_single_button_port_read) None None None.

Definition test_defaults_engine_500 : btn_init_t Z :=
  mk_init (instance test_defaults_engine) 2%nat 10 20 500
          (Some test_single_button_port_read) None None None.

(** Discharge the hypotheses of a theorem applied to a bench. *)
Ltac bench_hyp :=
  first [ solve_ready
        | reflexivity
        | cbn; lia
        | vm_compute; reflexivity
        | repeat constructor; cbn; first [ discriminate | reflexivity | lia ] ].

Lemma hold_from_rest_witness :
  exists this' tr,
    run [true; true; true; true; true] (bench_engine [bench_inst], []) = Some (this', tr) /\
    button_at this' 0 =
      Some (held_state 2 3 bench_inst (Z.of_nat (length [true; true; true; true; true]))) /\
    calls_of 0 tr =
      concat (repeat (invoke (long_press (bench_engine [bench_inst])) 0)
                (Z.to_nat (Z.of_nat (length [true; true; true; true; true])
                           - hold_long_tick 2 3 (prew (state bench_inst)) + 1))).
Proof.
  apply (hold_from_rest (bench_engine [bench_inst]) 0 bench_inst level_read 2 3
           [true; true; true; true; true]); bench_hyp.
Defined.

Lemma release_takes_buffer_plus_one_witness :
  (forall j, (j < length [false; false; false])%nat ->
     exists this' tr,
       run (take j [false; false; false])
           (bench_engine [bench_held BTN_STATE_NONE 1], []) = Some (this', tr) /\
       button_at this' 0 =
         Some (set_lock_count (bench_held BTN_STATE_NONE 1)
                 (lock_count (bench_held BTN_STATE_NONE 1) - Z.of_nat j)) /\
       calls_of 0 tr = []) /\
  exists this' tr b',
    run [false; false; false] (bench_engine [bench_held BTN_STATE_NONE 1], []) =
      Some (this', tr) /\
    button_at this' 0 = Some b' /\
    locked (state b') = false /\
    lock_count b' = 0 /\
    long_count b' = long_count (bench_held BTN_STATE_NONE 1) /\
    (long_count (bench_held BTN_STATE_NONE 1) < 3 ->
       act (state b') = BTN_STATE_SHORT /\
       calls_of 0 tr =
         invoke (short_release (bench_engine [bench_held BTN_STATE_NONE 1])) 0) /\
    (3 <= long_count (bench_held BTN_STATE_NONE 1) ->
       act (state b') = act (state (bench_held BTN_STATE_NONE 1)) /\
       calls_of 0 tr =
         if btn_state_eqb BTN_STATE_LONG (act (state (bench_held BTN_STATE_NONE 1)))
         then invoke (long_release (bench_engine [bench_held BTN_STATE_NONE 1])) 0
         else []).
Proof.
  apply (release_takes_buffer_plus_one (bench_engine [bench_held BTN_STATE_NONE 1]) 0
           (bench_held BTN_STATE_NONE 1) level_read 3 [false; false; false]);
    bench_hyp.
Defined.

Lemma press_and_release_from_rest_witness :
  exists this' tr b',
    run ([true; true; true; true; true] ++ [false; false; false])
        (bench_engine [bench_inst], []) = Some (this', tr) /\
    button_at this' 0 = Some b' /\
    locked (state b') = false /\
    lock_count b' = 0 /\
    (Z.of_nat (length [true; true; true; true; true])
       < hold_long_tick 2 3 (prew (state bench_inst)) ->
       act (state b') = BTN_STATE_SHORT /\
       calls_of 0 tr = invoke (short_release (bench_engine [bench_inst])) 0) /\
    (hold_long_tick 2 3 (prew (state bench_inst))
       <= Z.of_nat (length [true; true; true; true; true]) ->
       act (state b') = BTN_STATE_LONG /\
       calls_of 0 tr =
         concat (repeat (invoke (long_press (bench_engine [bench_inst])) 0)
                   (Z.to_nat (Z.of_nat (length [true; true; true; true; true])
                              - hold_long_tick 2 3 (prew (state bench_inst)) + 1)))
         ++ invoke (long_release (bench_engine [bench_inst])) 0).
Proof.
  apply (press_and_release_from_rest (bench_engine [bench_inst]) 0 bench_inst level_read
           2 3 [true; true; true; true; true] [false; false; false]); bench_hyp.
Defined.

Lemma lock_counts_presses_across_releases_witness :
  (exists this' tr b',
     run [true; false; false] (bench_engine [bench_inst], []) = Some (this', tr) /\
     button_at this' 0 = Some b' /\
     locked (state b') = false /\ lock_count b' = 2 - 1 /\
     calls_of 0 tr = []) /\
  (exists this' tr b',
     run ([true; false; false] ++ [true]) (bench_engine [bench_inst], []) =
       Some (this', tr) /\
     button_at this' 0 = Some b' /\
     locked (state b') = true /\ lock_count b' = 2).
Proof.
  apply (lock_counts_presses_across_releases (bench_engine [bench_inst]) 0 bench_inst
           level_read 2 [true; false; false] true); bench_hyp.
Defined.

Lemma counters_stay_in_bounds_witness :
  exists b d,
    button_at (bench_engine [bench_held BTN_STATE_NONE 1]) 0 = Some b /\
    BTN_DEBOUNCE_TIME (bench_engine [bench_held BTN_STATE_NONE 1]) = Some d /\
    0 <= d <= 255 /\
    counters_in_bounds d b.
Proof.
  apply (counters_stay_in_bounds None bench_init (bench_engine [bench_inst])
           (bench_engine [bench_held BTN_STATE_NONE 1]) [bench_inst] 1
           [true; true] [] 0); bench_hyp.
Defined.

Lemma Button_Init_frame_witness :
  exists arr',
    instance test_defaults_engine = Some arr' /\
    length arr' = length test_defaults_inst /\
    forall i b, test_defaults_inst !! i = Some b ->
      exists b', arr' !! i = Some b' /\
        port b' = port b /\ pin b' = pin b /\
        act (state b') = act (state b) /\
        (long_press_time_ms b <> 0 -> long_press_time_ms b' = long_press_time_ms b) /\
        ((2 <= i)%nat -> b' = b).
Proof.
  apply (Button_Init_frame None test_defaults_init test_defaults_inst 2
           test_defaults_engine).
  reflexivity.
Defined.

Lemma Button_Init_again_is_identity_witness :
  Button_Init None (Some test_defaults_engine) (instance test_defaults_engine) 2 =
    Some (0, Some test_defaults_engine).
Proof.
  apply (Button_Init_again_is_identity None None test_defaults_init test_defaults_inst 2
           test_defaults_engine).
  reflexivity.
Defined.

Lemma long_press_default_applied_once_witness :
  exists b',
    button_at test_defaults_engine_500 0 = Some b' /\
    long_press_time_ms b' =
      long_press_time_ms
        (mk_instance (mk_state BTN_STATE_NONE BTN_STATE_NONE false) 0 0 1000 3735928495 13) /\
    long_press_time_ms b' <> 0.
Proof.
  apply (long_press_default_applied_once None None test_defaults_init
           test_defaults_init_500 test_defaults_inst
           [ mk_instance (mk_state BTN_STATE_NONE BTN_STATE_NONE false) 0 0 1000 3735928495 13;
             mk_instance (mk_state BTN_STATE_NONE BTN_STATE_NONE false) 0 0 2050 305419896 5 ]
           2 2 test_defaults_engine test_defaults_engine_500 0); bench_hyp.
Defined.

Lemma v2_body_agrees_with_v1_witness :
  let r1 := V1_api.Button_Update_body 0 true (v1_bench_btn BTN_STATE_LONG true 2 100) in
  Button_Update_body (bench_engine []) 0 (if true then 1 else 0)
                     (to_v2 (v1_bench_btn BTN_STATE_LONG true 2 100)) =
    Some (to_v2 (fst r1),
          if long_press_again true (v1_bench_btn BTN_STATE_LONG true 2 100) (fst r1)
          then invoke (long_press (bench_engine [])) 0
          else concat (map (v2_calls (bench_engine [])) (snd r1))) /\
  (long_press_again true (v1_bench_btn BTN_STATE_LONG true 2 100) (fst r1) = true ->
   snd r1 = []).
Proof.
  apply (v2_body_agrees_with_v1 (bench_engine []) 0 true
           (v1_bench_btn BTN_STATE_LONG true 2 100)); reflexivity.
Defined.

Lemma v2_tick_follows_v1_tick_witness :
  exists tr2,
    Button_Update false
      (engine_v2 (V1_api.mk_statics 1 (Some [v1_bench_btn BTN_STATE_NONE true 0 1])
                                    (Some v1_level_read))
                 (Some btn_ev_short_release) None None) =
    Some (engine_v2 (V1_api.mk_statics 1 (Some [v1_bench_btn BTN_STATE_SHORT false 0 1])
                                       (Some v1_level_read))
                    (Some btn_ev_short_release) None None,
          tr2).
Proof.
  apply (v2_tick_follows_v1_tick false
           (V1_api.mk_statics 1 (Some [v1_bench_btn BTN_STATE_NONE true 0 1])
                              (Some v1_level_read))
           (V1_api.mk_statics 1 (Some [v1_bench_btn BTN_STATE_SHORT false 0 1])
                              (Some v1_level_read))
           [V1.Button_ShortRelease 0]).
  vm_compute. reflexivity.
Defined.

Lemma V1_Button_Init_checks_nothing_witness :
  exists arr',
    V1_api.Button_Init (Some [v1_bench_btn BTN_STATE_LONG true 2 7])
                       (@None (V1_api.portReadCallback_t bool)) 1 =
      Some (V1_api.mk_statics 1 (Some arr') None) /\
    length arr' = length [v1_bench_btn BTN_STATE_LONG true 2 7] /\
    (forall i b, [v1_bench_btn BTN_STATE_LONG true 2 7] !! i = Some b ->
       arr' !! i =
         Some (if (i <? 1)%nat then V1_api.Button_Init_instance b else b)) /\
    ((0 < 1)%nat ->
     forall w : bool,
       is_Some (V1_api.Button_Update w (V1_api.mk_statics 1 (Some arr') None))
       <-> is_Some (@None (V1_api.portReadCallback_t bool))).
Proof.
  apply (V1_Button_Init_checks_nothing [v1_bench_btn BTN_STATE_LONG true 2 7] None 1).
  cbn. lia.
Defined.
